(** * A shallow embedding of the task-tracker bot ([src/bot.py])

    The bot keeps one SQLite table of tasks and serves six chat commands.
    This development embeds the validator ([normalize_username],
    [parse_task_input]), the four handlers that touch the table ([newtask],
    [tasks], [mytasks], [done]) and the pieces of the Python and SQLite
    libraries they call, and then checks the statements made about them. *)

From Stdlib Require Import String Ascii.
From Stdlib Require Import List ZArith NArith Bool Lia Sorted Permutation.
Import ListNotations.

Set Implicit Arguments.

(** ** Python [str]

    A Python string is a sequence of Unicode code points; [strip], [isdigit],
    [int] and the regular expressions of [strptime] all look at code points,
    not bytes, so the model does the same.  The character tables are those of
    the Unicode database shipped with CPython 3.11 (Unicode 14.0). *)
Module PyStr.

Definition char := N.
Definition str := list char.

(** Literals: only for ASCII text, where one byte is one code point. *)
Fixpoint of_string (s : string) : str :=
  match s with
  | EmptyString => []
  | String a r => N_of_ascii a :: of_string r
  end.

Definition chr (a : ascii) : char := N_of_ascii a.

Definition in_ranges (rs : list (N * N)) (c : char) : bool :=
  existsb (fun r => (fst r <=? c)%N && (c <=? snd r)%N) rs.

(** [Py_UNICODE_ISSPACE]: the characters [str.strip()] removes. *)
Definition whitespace_ranges : list (N * N) :=
  [ (0x09, 0x0d); (0x1c, 0x20); (0x85, 0x85); (0xa0, 0xa0);
    (0x1680, 0x1680); (0x2000, 0x200a); (0x2028, 0x2029);
    (0x202f, 0x202f); (0x205f, 0x205f); (0x3000, 0x3000) ]%N.

Definition isspace (c : char) : bool := in_ranges whitespace_ranges c.

Fixpoint lstrip (s : str) : str :=
  match s with
  | [] => []
  | c :: r => if isspace c then lstrip r else s
  end.

Definition rstrip (s : str) : str := rev (lstrip (rev s)).

(** [s.strip()] *)
Definition strip (s : str) : str := rstrip (lstrip s).

(** [s.startswith(p)] *)
Fixpoint startswith (p s : str) : bool :=
  match p, s with
  | [], _ => true
  | a :: p', b :: s' => (a =? b)%N && startswith p' s'
  | _ :: _, [] => false
  end.

(** [s.split(sep)] for a one-character separator: never an empty list. *)
Fixpoint split (sep : char) (s : str) : list str :=
  match s with
  | [] => [[]]
  | c :: r =>
      if (c =? sep)%N then [] :: split sep r
      else match split sep r with
           | f :: fs => (c :: f) :: fs
           | [] => [[c]]
           end
  end.

(** [sep.join(parts)] *)
Fixpoint join (sep : str) (parts : list str) : str :=
  match parts with
  | [] => []
  | [p] => p
  | p :: ps => p ++ sep ++ join sep ps
  end.

Fixpoint eqb (a b : str) : bool :=
  match a, b with
  | [], [] => true
  | x :: a', y :: b' => (x =? y)%N && eqb a' b'
  | _, _ => false
  end.

(** Code-point order, which is also the byte order of the UTF-8 encodings
    that SQLite's BINARY collation compares. *)
Fixpoint compare (a b : str) : comparison :=
  match a, b with
  | [], [] => Eq
  | [], _ :: _ => Lt
  | _ :: _, [] => Gt
  | x :: a', y :: b' =>
      match (x ?= y)%N with
      | Eq => compare a' b'
      | c => c
      end
  end.

(** [Py_UNICODE_TODECIMAL]: the decimal digits (category Nd) come in runs of
    ten consecutive code points, valued 0 to 9; these are the first code
    points of the runs. *)
Definition decimal_blocks : list N :=
  [ 0x30; 0x660; 0x6f0; 0x7c0; 0x966; 0x9e6; 0xa66; 0xae6; 0xb66; 0xbe6;
    0xc66; 0xce6; 0xd66; 0xde6; 0xe50; 0xed0; 0xf20; 0x1040; 0x1090;
    0x17e0; 0x1810; 0x1946; 0x19d0; 0x1a80; 0x1a90; 0x1b50; 0x1bb0;
    0x1c40; 0x1c50; 0xa620; 0xa8d0; 0xa900; 0xa9d0; 0xa9f0; 0xaa50;
    0xabf0; 0xff10; 0x104a0; 0x10d30; 0x11066; 0x110f0; 0x11136;
    0x111d0; 0x112f0; 0x11450; 0x114d0; 0x11650; 0x116c0; 0x11730;
    0x118e0; 0x11950; 0x11c50; 0x11d50; 0x11da0; 0x16a60; 0x16ac0;
    0x16b50; 0x1d7ce; 0x1d7d8; 0x1d7e2; 0x1d7ec; 0x1d7f6; 0x1e140;
    0x1e2f0; 0x1e950; 0x1fbf0 ]%N.

Definition decimal_value (c : char) : option N :=
  match find (fun b => (b <=? c)%N && (c <? b + 10)%N) decimal_blocks with
  | Some b => Some (c - b)%N
  | None => None
  end.

Definition isdecimal_char (c : char) : bool :=
  match decimal_value c with Some _ => true | None => false end.

(** Characters that are digits ([Numeric_Type=Digit]) without being
    decimal: superscripts, subscripts, circled digits and the like. *)
Definition digit_only_ranges : list (N * N) :=
  [ (0xb2, 0xb3); (0xb9, 0xb9); (0x1369, 0x1371); (0x19da, 0x19da);
    (0x2070, 0x2070); (0x2074, 0x2079); (0x2080, 0x2089);
    (0x2460, 0x2468); (0x2474, 0x247c); (0x2488, 0x2490);
    (0x24ea, 0x24ea); (0x24f5, 0x24fd); (0x24ff, 0x24ff);
    (0x2776, 0x277e); (0x2780, 0x2788); (0x278a, 0x2792);
    (0x10a40, 0x10a43); (0x10e60, 0x10e68); (0x11052, 0x1105a);
    (0x1f100, 0x1f10a) ]%N.

(** [Py_UNICODE_ISDIGIT] *)
Definition isdigit_char (c : char) : bool :=
  isdecimal_char c || in_ranges digit_only_ranges c.

(** [s.isdigit()]: every character is a digit and there is at least one. *)
Definition isdigit (s : str) : bool :=
  match s with
  | [] => false
  | _ :: _ => forallb isdigit_char s
  end.

(** [s.isdecimal()], the stricter test that [int] agrees with. *)
Definition isdecimal (s : str) : bool :=
  match s with
  | [] => false
  | _ :: _ => forallb isdecimal_char s
  end.

Definition isascii_char (c : char) : bool := (c <? 128)%N.

Definition ascii_lower (c : char) : char :=
  if (65 <=? c)%N && (c <=? 90)%N then (c + 32)%N else c.

(** The digits of [int(s)] in base ten: decimal characters, single
    underscores allowed between two of them. *)
Fixpoint int_digits (acc : Z) (after_digit : bool) (s : str) : option Z :=
  match s with
  | [] => if after_digit then Some acc else None
  | c :: r =>
      if (c =? chr "_")%N then
        if after_digit then int_digits acc false r else None
      else
        match decimal_value c with
        | Some d => int_digits (10 * acc + Z.of_N d) true r
        | None => None
        end
  end.

(** The whitespace [int] skips around a number: that of [strip] without the
    four separators U+001C to U+001F. *)
Definition isspace_int (c : char) : bool :=
  isspace c && negb ((0x1c <=? c)%N && (c <=? 0x1f)%N).

Fixpoint lstrip_int (s : str) : str :=
  match s with
  | [] => []
  | c :: r => if isspace_int c then lstrip_int r else s
  end.

Definition strip_int (s : str) : str := rev (lstrip_int (rev (lstrip_int s))).

(** [sys.get_int_max_str_digits()], as CPython 3.11 sets it. *)
Definition max_str_digits : N := 4300.

(** The number after its sign: refused when it has more digits than the
    limit, underscores not counted. *)
Definition int_unsigned (s : str) : option Z :=
  if (max_str_digits <? N.of_nat (length (filter (fun c => negb (c =? chr "_")%N) s)))%N
  then None
  else int_digits 0 false s.

(** [int(s)]; [None] is [ValueError]. *)
Definition int (s : str) : option Z :=
  match strip_int s with
  | [] => None
  | c :: r =>
      if (c =? chr "-")%N then option_map Z.opp (int_unsigned r)
      else if (c =? chr "+")%N then int_unsigned r
      else int_unsigned (c :: r)
  end.

(** [s.lower()].  On a string of ASCII characters only, lowercasing moves
    [A-Z] to [a-z] and nothing else.  On any other string it goes through
    the case tables of the Unicode database (and a context rule for the
    Greek capital sigma); those tables are taken as a parameter. *)
Section Lower.
Variable unicode_lower : str -> str.

Definition lower (s : str) : str :=
  if forallb isascii_char s then map ascii_lower s else unicode_lower s.
End Lower.

(** [str(n)] for an integer. *)
Fixpoint digits_of_pos (fuel : nat) (n : N) (acc : str) : str :=
  match fuel with
  | O => acc
  | S fuel' =>
      let acc' := (48 + n mod 10)%N :: acc in
      if (n <? 10)%N then acc' else digits_of_pos fuel' (n / 10)%N acc'
  end.

Definition of_N (n : N) : str := digits_of_pos (S (N.to_nat (N.log2 n))) n [].

Definition of_Z (z : Z) : str :=
  match z with
  | Zneg p => chr "-" :: of_N (Npos p)
  | _ => of_N (Z.to_N z)
  end.

End PyStr.

Definition py : string -> PyStr.str := PyStr.of_string.

(** ** [datetime.strptime(s, "%Y-%m-%d")]

    CPython turns the format into the regular expression
    [(?P<Y>\d\d\d\d)-(?P<m>1[0-2]|0[1-9]|[1-9])-(?P<d>3[0-1]|[1-2]\d|0[1-9]|[1-9]| [1-9])],
    matches it at the start of the input, rejects input left over after the
    match, converts the three groups with [int] and builds a [date] from
    them, which checks the calendar. *)
Module Datetime.
Import PyStr.

(** A backtracking matcher: every way to match a prefix of the input, as
    (matched text, remaining input), in the order the engine tries them. *)
Definition rx := str -> list (str * str).

Definition rx_class (p : char -> bool) : rx :=
  fun s => match s with
           | c :: r => if p c then [([c], r)] else []
           | [] => []
           end.

Definition rx_seq (a b : rx) : rx :=
  fun s => flat_map (fun m1 => map (fun m2 => (fst m1 ++ fst m2, snd m2)) (b (snd m1))) (a s).

Definition rx_alt (a b : rx) : rx := fun s => a s ++ b s.

Definition rx_char (a : ascii) : rx := rx_class (N.eqb (chr a)).

Definition rx_range (lo hi : ascii) : rx :=
  rx_class (fun c => (chr lo <=? c)%N && (c <=? chr hi)%N).

(** [\d] on a [str] pattern: any Unicode decimal digit. *)
Definition rx_d : rx := rx_class isdecimal_char.

(** [%Y]: [\d\d\d\d] *)
Definition directive_Y : rx := rx_seq rx_d (rx_seq rx_d (rx_seq rx_d rx_d)).

(** [%m]: [1[0-2]|0[1-9]|[1-9]] *)
Definition directive_m : rx :=
  rx_alt (rx_seq (rx_char "1") (rx_range "0" "2"))
    (rx_alt (rx_seq (rx_char "0") (rx_range "1" "9"))
       (rx_range "1" "9")).

(** [%d]: [3[0-1]|[1-2]\d|0[1-9]|[1-9]| [1-9]] *)
Definition directive_d : rx :=
  rx_alt (rx_seq (rx_char "3") (rx_range "0" "1"))
    (rx_alt (rx_seq (rx_range "1" "2") rx_d)
       (rx_alt (rx_seq (rx_char "0") (rx_range "1" "9"))
          (rx_alt (rx_range "1" "9")
             (rx_seq (rx_char " ") (rx_range "1" "9"))))).

Record found := { group_Y : str; group_m : str; group_d : str; rest : str }.

(** The matches of the expression after the year group, [-m-d]: the text of
    the month group, of the day group, and the input left over. *)
Definition month_day (s : str) : list (str * str * str) :=
  flat_map (fun dash1 =>
    flat_map (fun m =>
      flat_map (fun dash2 =>
        map (fun d => (fst m, fst d, snd d)) (directive_d (snd dash2)))
        (rx_char "-" (snd m)))
      (directive_m (snd dash1)))
    (rx_char "-" s).

(** All the matches of the whole expression, first choice first. *)
Definition format_regex (s : str) : list found :=
  flat_map (fun y =>
    map (fun md => {| group_Y := fst y; group_m := fst (fst md);
                      group_d := snd (fst md); rest := snd md |})
        (month_day (snd y)))
    (directive_Y s).

Definition is_leap (y : Z) : bool :=
  ((y mod 4 =? 0) && (negb (y mod 100 =? 0) || (y mod 400 =? 0)))%Z.

Definition days_in_month (y m : Z) : Z :=
  if ((m =? 2)%Z) then (if is_leap y then 29 else 28)%Z
  else if ((m =? 4) || (m =? 6) || (m =? 9) || (m =? 11))%Z then 30%Z
  else 31%Z.

Record date := { year : Z; month : Z; day : Z }.

(** [date(year, month, day)]; [None] is [ValueError]. *)
Definition make_date (y m d : Z) : option date :=
  if ((1 <=? y) && (y <=? 9999) && (1 <=? m) && (m <=? 12) &&
      (1 <=? d) && (d <=? days_in_month y m))%Z
  then Some {| year := y; month := m; day := d |}
  else None.

(** [datetime.strptime(s, "%Y-%m-%d")], reduced to its date; [None] is
    [ValueError] (no match, unconverted data, or no such day). *)
Definition strptime (s : str) : option date :=
  match format_regex s with
  | [] => None
  | f :: _ =>
      match rest f with
      | _ :: _ => None
      | [] =>
          match int (group_Y f), int (group_m f), int (group_d f) with
          | Some y, Some m, Some d => make_date y m d
          | _, _, _ => None
          end
      end
  end.

End Datetime.

(** ** The data of the bot *)

(** [TaskInput], the dataclass [parse_task_input] returns. *)
Module TaskInput.
Record t := make {
  title : PyStr.str;
  assignee : PyStr.str;
  due_date : PyStr.str;
  priority : PyStr.str;
  tags : PyStr.str
}.
End TaskInput.

(** The two values the [status] column takes: its default ['open'] and the
    ['done'] that the UPDATE of [done] writes. *)
Inductive Status := StatusOpen | StatusDone.

(** A row of the table [tasks], column by column.  [completed_at] is the one
    column that holds NULL. *)
Module Row.
Record t := make {
  id : Z;
  chat_id : Z;
  created_by_id : Z;
  created_by_username : PyStr.str;
  title : PyStr.str;
  assignee_username : PyStr.str;
  due_date : PyStr.str;
  priority : PyStr.str;
  tags : PyStr.str;
  status : Status;
  created_at : PyStr.str;
  completed_at : option PyStr.str
}.
End Row.

(** The database file: the rows in insertion order, and the counter that
    AUTOINCREMENT keeps in [sqlite_sequence] (the largest id ever given). *)
Record DB := { rows : list Row.t; seq : Z }.

(** [init_db]: CREATE TABLE IF NOT EXISTS keeps an existing table and starts
    a missing one empty. *)
Definition init_db (file : option DB) : DB :=
  match file with
  | Some db => db
  | None => {| rows := []; seq := 0 |}
  end.

(** The four messages [parse_task_input] raises [ValueError] with. *)
Inductive value_error := FormatError | EmptyTitle | BadDate | BadPriority.

Inductive result (E A : Type) := Ok (a : A) | Raise (e : E).
Arguments Ok {E A} a.
Arguments Raise {E A} e.

(** What a handler sends back with [reply_text]. *)
Inductive message :=
| HelpText
| NewtaskUsage
| Rejected (why : value_error)
| Created (task_id : Z)
| NoOpenTasks
| UnknownUser
| NoOpenTasksForYou
| TaskList (found : list Row.t)
| DoneUsage
| NotFound
| Closed (task_id : Z).

(** The exceptions that leave a handler. *)
Inductive exn := ValueError | OverflowError | AttributeError | OperationalError.

(** What a handler does, in order: replies, and statements run on the
    connection. *)
Inductive effect :=
| Reply (m : message)
| SqlSelect
| SqlInsert
| SqlUpdate
| SqlCommit.

Definition is_sql (e : effect) : bool :=
  match e with Reply _ => false | _ => true end.

(** Handlers run in a monad that threads the database, records the effects
    and stops at the first exception. *)
Definition M (A : Type) : Type := DB -> result exn A * DB * list effect.

Definition ret {A} (a : A) : M A := fun db => (Ok a, db, []).

Definition raise {A} (e : exn) : M A := fun db => (Raise e, db, []).

Definition bind {A B} (m : M A) (k : A -> M B) : M B :=
  fun db =>
    match m db with
    | (Ok a, db1, l1) =>
        match k a db1 with
        | (r, db2, l2) => (r, db2, l1 ++ l2)
        end
    | (Raise e, db1, l1) => (Raise e, db1, l1)
    end.

Notation "x <- m ;; k" := (bind m (fun x => k))
  (at level 61, m at next level, right associativity).
Notation "m ;;; k" := (bind m (fun _ => k))
  (at level 61, right associativity).

(** ** SQL *)

(** ORDER BY due_date ASC, priority DESC, id DESC.  The first two columns
    are TEXT and compare as text; ids compare as integers. *)
Definition order_cmp (a b : Row.t) : comparison :=
  match PyStr.compare (Row.due_date a) (Row.due_date b) with
  | Eq =>
      match PyStr.compare (Row.priority b) (Row.priority a) with
      | Eq => (Row.id b ?= Row.id a)%Z
      | c => c
      end
  | c => c
  end.

Definition order_leb (a b : Row.t) : bool :=
  match order_cmp a b with Gt => false | _ => true end.

Fixpoint insert_sorted (r : Row.t) (l : list Row.t) : list Row.t :=
  match l with
  | [] => [r]
  | x :: l' => if order_leb r x then r :: l else x :: insert_sorted r l'
  end.

Fixpoint order_by (l : list Row.t) : list Row.t :=
  match l with
  | [] => []
  | r :: l' => insert_sorted r (order_by l')
  end.

Definition status_eqb (a b : Status) : bool :=
  match a, b with
  | StatusOpen, StatusOpen | StatusDone, StatusDone => true
  | _, _ => false
  end.

(** SELECT * FROM tasks WHERE chat_id = ? AND status = 'open' ORDER BY ... *)
Definition list_open (chat : Z) (table : list Row.t) : list Row.t :=
  order_by
    (filter (fun r => (Row.chat_id r =? chat)%Z && status_eqb (Row.status r) StatusOpen)
       table).

(** ... WHERE chat_id = ? AND status = 'open' AND assignee_username = ? ... *)
Definition list_open_for_assignee (chat : Z) (username : PyStr.str)
    (table : list Row.t) : list Row.t :=
  order_by
    (filter (fun r => (Row.chat_id r =? chat)%Z && status_eqb (Row.status r) StatusOpen
                      && PyStr.eqb (Row.assignee_username r) username)
       table).

(** SELECT * FROM tasks WHERE id = ? AND chat_id = ?, then [fetchone]. *)
Definition find_task (task_id chat : Z) (table : list Row.t) : option Row.t :=
  find (fun r => (Row.id r =? task_id)%Z && (Row.chat_id r =? chat)%Z) table.

(** SET status = 'done', completed_at = CURRENT_TIMESTAMP on one row. *)
Definition set_done (now : PyStr.str) (r : Row.t) : Row.t :=
  {| Row.id := Row.id r;
     Row.chat_id := Row.chat_id r;
     Row.created_by_id := Row.created_by_id r;
     Row.created_by_username := Row.created_by_username r;
     Row.title := Row.title r;
     Row.assignee_username := Row.assignee_username r;
     Row.due_date := Row.due_date r;
     Row.priority := Row.priority r;
     Row.tags := Row.tags r;
     Row.status := StatusDone;
     Row.created_at := Row.created_at r;
     Row.completed_at := Some now |}.

(** UPDATE tasks SET ... WHERE id = ? *)
Definition mark_done (task_id : Z) (now : PyStr.str) (table : list Row.t) : list Row.t :=
  map (fun r => if (Row.id r =? task_id)%Z then set_done now r else r) table.

Definition sql_list_open (chat : Z) : M (list Row.t) :=
  fun db => (Ok (list_open chat (rows db)), db, [SqlSelect]).

Definition sql_list_open_for_assignee (chat : Z) (username : PyStr.str) : M (list Row.t) :=
  fun db => (Ok (list_open_for_assignee chat username (rows db)), db, [SqlSelect]).

Definition sql_find_task (task_id chat : Z) : M (option Row.t) :=
  fun db => (Ok (find_task task_id chat (rows db)), db, [SqlSelect]).

Definition sql_mark_done (task_id : Z) (now : PyStr.str) : M unit :=
  fun db => (Ok tt, {| rows := mark_done task_id now (rows db); seq := seq db |}, [SqlUpdate]).

(** INSERT INTO tasks (...) VALUES (...): AUTOINCREMENT gives the new row an
    id one above the largest ever used, the column defaults give it status
    ['open'] and created_at CURRENT_TIMESTAMP, and completed_at stays NULL;
    the result is [cur.lastrowid].  Once the largest id is 2^63 - 1 SQLite
    refuses the statement (SQLITE_FULL), which the driver raises as
    [OperationalError]. *)
Definition sql_insert_task (chat creator : Z) (creator_name : PyStr.str)
    (task : TaskInput.t) (now : PyStr.str) : M Z :=
  fun db =>
    let new_id := (fold_right Z.max (seq db) (map Row.id (rows db)) + 1)%Z in
    if (2 ^ 63 <=? new_id)%Z then (Raise OperationalError, db, []) else
    let r := {| Row.id := new_id;
                Row.chat_id := chat;
                Row.created_by_id := creator;
                Row.created_by_username := creator_name;
                Row.title := TaskInput.title task;
                Row.assignee_username := TaskInput.assignee task;
                Row.due_date := TaskInput.due_date task;
                Row.priority := TaskInput.priority task;
                Row.tags := TaskInput.tags task;
                Row.status := StatusOpen;
                Row.created_at := now;
                Row.completed_at := None |} in
    (Ok new_id, {| rows := rows db ++ [r]; seq := new_id |}, [SqlInsert]).

Definition sql_commit : M unit := fun db => (Ok tt, db, [SqlCommit]).

(** The driver binds a Python [int] as a signed 64-bit INTEGER and raises
    [OverflowError] when it does not fit.  Chat and user ids come from
    Telegram and fit; the id typed after /done need not. *)
Definition sqlite_int64 (n : Z) : M Z :=
  if ((- 2 ^ 63 <=? n) && (n <? 2 ^ 63))%Z then ret n else raise OverflowError.

(** ** The update a handler receives *)

Module User.
Record t := make { id : Z; username : option PyStr.str }.
End User.

(** [has_message] tells whether [update.message] is set.  It is for a
    command sent as a new message and it is [None] for a command in an edited
    message, which the framework hands to the same handlers. *)
Record Update := {
  effective_chat : Z;
  effective_user : option User.t;
  has_message : bool
}.

(** [await update.message.reply_text(...)]: without a message the attribute
    access raises [AttributeError] and nothing is sent.  With one, the effect
    records that the handler hands the text to the transport; what the
    transport does with it is outside this development. *)
Definition reply (update : Update) (m : message) : M unit :=
  fun db =>
    if has_message update then (Ok tt, db, [Reply m])
    else (Raise AttributeError, db, []).

(** ** The validator and the handlers *)

Section Bot.

Variable unicode_lower : PyStr.str -> PyStr.str.

Definition is_empty (s : PyStr.str) : bool :=
  match s with [] => true | _ :: _ => false end.

Definition normalize_username (value : PyStr.str) : PyStr.str :=
  let username := PyStr.strip value in
  if PyStr.startswith (py "@") username then username else py "@" ++ username.

Definition priorities : list PyStr.str := [py "low"; py "medium"; py "high"].

Definition parse_task_input (raw : PyStr.str) : result value_error TaskInput.t :=
  let parts := map PyStr.strip (PyStr.split (PyStr.chr "|") raw) in
  if negb (length parts =? 5)%nat then Raise FormatError
  else
    match parts with
    | [title; assignee; due_date; priority; tags] =>
        if is_empty title then Raise EmptyTitle
        else
          let assignee := normalize_username assignee in
          match Datetime.strptime due_date with
          | None => Raise BadDate
          | Some _ =>
              let normalized_priority := PyStr.lower unicode_lower priority in
              if negb (existsb (PyStr.eqb normalized_priority) priorities)
              then Raise BadPriority
              else Ok {| TaskInput.title := title;
                         TaskInput.assignee := assignee;
                         TaskInput.due_date := due_date;
                         TaskInput.priority := normalized_priority;
                         TaskInput.tags := tags |}
          end
    | _ => Raise FormatError
    end.

Definition start (update : Update) (args : list PyStr.str) : M unit :=
  reply update HelpText.

Definition help_command (update : Update) (args : list PyStr.str) : M unit :=
  start update args.

(** [user.username or f"user_{user.id}"] *)
Definition username_or_id (user : User.t) : PyStr.str :=
  match User.username user with
  | Some (c :: name) => c :: name
  | _ => py "user_" ++ PyStr.of_Z (User.id user)
  end.

Definition newtask (update : Update) (args : list PyStr.str) (now : PyStr.str) : M unit :=
  let raw := PyStr.strip (PyStr.join (py " ") args) in
  if is_empty raw then reply update NewtaskUsage
  else
    match parse_task_input raw with
    | Raise exc => reply update (Rejected exc)
    | Ok task =>
        match effective_user update with
        | None => raise AttributeError
        | Some created_by =>
            task_id <- sql_insert_task (effective_chat update) (User.id created_by)
                         (normalize_username (username_or_id created_by)) task now ;;
            sql_commit ;;;
            reply update (Created task_id)
        end
    end.

Definition current_username (update : Update) : option PyStr.str :=
  match effective_user update with
  | None => None
  | Some user =>
      match User.username user with
      | Some (c :: name) => Some (normalize_username (c :: name))
      | _ => Some (normalize_username (py "user_" ++ PyStr.of_Z (User.id user)))
      end
  end.

Definition tasks (update : Update) (args : list PyStr.str) : M unit :=
  found <- sql_list_open (effective_chat update) ;;
  match found with
  | [] => reply update NoOpenTasks
  | _ :: _ => reply update (TaskList found)
  end.

Definition mytasks (update : Update) (args : list PyStr.str) : M unit :=
  match current_username update with
  | None | Some [] => reply update UnknownUser
  | Some username =>
      found <- sql_list_open_for_assignee (effective_chat update) username ;;
      match found with
      | [] => reply update NoOpenTasksForYou
      | _ :: _ => reply update (TaskList found)
      end
  end.

(** The two statements of lines 228-245 of [done], run on parameters the
    driver has already bound: look the task up by id and chat, and close it
    when it is there.  The result tells whether a row was found. *)
Definition complete (chat task_id : Z) (now : PyStr.str) : M bool :=
  row <- sql_find_task task_id chat ;;
  match row with
  | None => ret false
  | Some _ =>
      sql_mark_done task_id now ;;;
      sql_commit ;;;
      ret true
  end.

(** Lines 227-245 of [done] as they run on the integer that [int] returned,
    the operation the specification calls [complete]: the first [execute]
    binds the id, which can fail, before the SELECT runs. *)
Definition complete_arg (chat task_id : Z) (now : PyStr.str) : M bool :=
  bound_id <- sqlite_int64 task_id ;;
  complete chat bound_id now.

Definition done (update : Update) (args : list PyStr.str) (now : PyStr.str) : M unit :=
  if negb (length args =? 1)%nat || negb (PyStr.isdigit (hd [] args))
  then reply update DoneUsage
  else
    match PyStr.int (hd [] args) with
    | None => raise ValueError
    | Some task_id =>
        closed <- complete_arg (effective_chat update) task_id now ;;
        if closed then reply update (Closed task_id) else reply update NotFound
    end.

(** ** The bot as a state machine *)

Inductive command := CmdStart | CmdHelp | CmdNewtask | CmdTasks | CmdMytasks | CmdDone.

(** One command as it arrives: who sent it where, its arguments (the
    message text split on whitespace) and the database clock. *)
Record event := {
  ev_command : command;
  ev_update : Update;
  ev_args : list PyStr.str;
  ev_now : PyStr.str
}.

Definition handle (e : event) : M unit :=
  match ev_command e with
  | CmdStart => start (ev_update e) (ev_args e)
  | CmdHelp => help_command (ev_update e) (ev_args e)
  | CmdNewtask => newtask (ev_update e) (ev_args e) (ev_now e)
  | CmdTasks => tasks (ev_update e) (ev_args e)
  | CmdMytasks => mytasks (ev_update e) (ev_args e)
  | CmdDone => done (ev_update e) (ev_args e) (ev_now e)
  end.

(** The database after a handler has run (an exception is logged by the
    framework and the bot goes on; what was committed before it stays). *)
Definition db_after {A} (m : M A) (db : DB) : DB := snd (fst (m db)).

Definition effects_of {A} (m : M A) (db : DB) : list effect := snd (m db).

Definition outcome_of {A} (m : M A) (db : DB) : result exn A := fst (fst (m db)).

Definition step (db : DB) (e : event) : DB := db_after (handle e) db.

Definition run (events : list event) (db : DB) : DB := fold_left step events db.

End Bot.

(** A stand-in for the Unicode case tables in closed examples: their strings
    are ASCII, so it is never consulted there. *)
Definition no_case_tables (s : PyStr.str) : PyStr.str := s.

(** ** Vocabulary of the statements *)

(** A string with no whitespace at either end. *)
Definition trimmed (s : PyStr.str) : Prop :=
  (forall c r, s = c :: r -> PyStr.isspace c = false) /\
  (forall c r, s = r ++ [c] -> PyStr.isspace c = false).

(** [field] is [part] without the whitespace around it: what is cut off at
    either end is whitespace, and what is left has none at its ends. *)
Definition trim_of (part field : PyStr.str) : Prop :=
  exists l r,
    part = l ++ field ++ r /\
    forallb PyStr.isspace l = true /\ forallb PyStr.isspace r = true /\
    trimmed field.

(** The fields of a text: the text is some parts joined with [sep], no part
    holds [sep], and each field is its part trimmed. *)
Definition fields_of (sep : PyStr.char) (raw : PyStr.str) (fields : list PyStr.str) : Prop :=
  exists parts,
    parts <> [] /\ raw = PyStr.join [sep] parts /\
    Forall (fun part => ~ In sep part) parts /\
    Forall2 trim_of parts fields.

(** [date.isoformat()]: four digits, two digits, two digits, with dashes. *)
Definition digit (k : Z) : PyStr.char := Z.to_N (48 + k).

Definition two_digits (n : Z) : PyStr.str := [digit (n / 10); digit (n mod 10)].

Definition four_digits (n : Z) : PyStr.str :=
  [digit (n / 1000); digit (n / 100 mod 10); digit (n / 10 mod 10); digit (n mod 10)].

Definition isoformat (y m d : Z) : PyStr.str :=
  four_digits y ++ py "-" ++ two_digits m ++ py "-" ++ two_digits d.

(** The integers from 1 to [hi]. *)
Definition one_to (hi : nat) : list Z := map Z.of_nat (List.seq 1 hi).

(** The first match after the year of an ISO date is the whole of its month
    and day. *)
Definition iso_month_day_first (m d : Z) : bool :=
  match Datetime.month_day (py "-" ++ two_digits m ++ py "-" ++ two_digits d) with
  | (mm, dd, []) :: _ => PyStr.eqb mm (two_digits m) && PyStr.eqb dd (two_digits d)
  | _ => false
  end.

(** Every match of a directive is a prefix of the input, of bounded
    length. *)
Definition prefix_matcher (a : Datetime.rx) (lo hi : nat) : Prop :=
  forall s m r, In (m, r) (a s) -> s = m ++ r /\ (lo <= length m <= hi)%nat.

(** The code points of a list of ranges, one by one. *)
Definition expand_ranges (rs : list (N * N)) : list N :=
  flat_map (fun r => map (fun k => (fst r + N.of_nat k)%N)
                         (List.seq 0 (S (N.to_nat (snd r - fst r))))) rs.

(** The row order of the two listings, as a relation. *)
Definition listed_before (a b : Row.t) : Prop := order_leb a b = true.

(** ** Sample data for the closed statements *)

Definition sender : User.t := {| User.id := 42; User.username := Some (py "ann") |}.

(** A command sent by [sender] in chat [chat], its text already split into
    words. *)
Definition sent (c : command) (chat : Z) (words : list string) (now : string) : event :=
  {| ev_command := c;
     ev_update := {| effective_chat := chat; effective_user := Some sender;
                     has_message := true |};
     ev_args := map py words;
     ev_now := py now |}.

(** Three tasks for one day in chat 7, created in the order high, medium,
    low. *)
Definition three_priorities : DB :=
  run no_case_tables
    [ sent CmdNewtask 7 ["A"; "|"; "bob"; "|"; "2024-01-02"; "|"; "high"; "|"; "x"]%string "t1";
      sent CmdNewtask 7 ["B"; "|"; "bob"; "|"; "2024-01-02"; "|"; "medium"; "|"; "x"]%string "t2";
      sent CmdNewtask 7 ["C"; "|"; "bob"; "|"; "2024-01-02"; "|"; "low"; "|"; "x"]%string "t3" ]
    (init_db None).

(** One task in chat 7, closed once at [t1]. *)
Definition closed_once : DB :=
  run no_case_tables
    [ sent CmdNewtask 7 ["A"; "|"; "bob"; "|"; "2024-01-02"; "|"; "high"; "|"; "x"]%string
        "2024-01-01 09:00:00";
      sent CmdDone 7 ["1"]%string "2024-01-01 10:00:00" ]
    (init_db None).

(** The same task after a second /done 1, a day later. *)
Definition closed_twice : DB :=
  step no_case_tables closed_once (sent CmdDone 7 ["1"]%string "2024-01-02 10:00:00").

(** The second row of [three_priorities]. *)
Definition medium_task : Row.t :=
  {| Row.id := 2;
     Row.chat_id := 7;
     Row.created_by_id := 42;
     Row.created_by_username := py "@ann";
     Row.title := py "B";
     Row.assignee_username := py "@bob";
     Row.due_date := py "2024-01-02";
     Row.priority := py "medium";
     Row.tags := py "x";
     Row.status := StatusOpen;
     Row.created_at := py "t2";
     Row.completed_at := None |}.

(** SUPERSCRIPT TWO, a digit that is not a decimal digit. *)
Definition superscript_two : PyStr.str := [0xb2%N].

(** ** What the replies say *)

(** "🟡 open" and "✅ done" *)
Definition open_label : PyStr.str := [0x1f7e1; 0x20]%N ++ py "open".

Definition done_label : PyStr.str := [0x2705; 0x20]%N ++ py "done".

(** [format_task_row]: four lines,
    "*#<id>* <title>", "👤 <assignee> | ⏰ <due date> | ⚡ <priority>",
    "🏷 <tags or ->" and "Статус: <label>". *)
Definition format_task_row (row : Row.t) : PyStr.str :=
  let tags := match Row.tags row with [] => py "-" | _ :: _ => Row.tags row end in
  let status := match Row.status row with
                | StatusDone => done_label
                | StatusOpen => open_label
                end in
  py "*#" ++ PyStr.of_Z (Row.id row) ++ py "* " ++ Row.title row
  ++ [0xa; 0x1f464; 0x20]%N ++ Row.assignee_username row
  ++ [0x20; 0x7c; 0x20; 0x23f0; 0x20]%N ++ Row.due_date row
  ++ [0x20; 0x7c; 0x20; 0x26a1; 0x20]%N ++ Row.priority row
  ++ [0xa; 0x1f3f7; 0x20]%N ++ tags
  ++ [0xa; 0x421; 0x442; 0x430; 0x442; 0x443; 0x441; 0x3a; 0x20]%N ++ status.

(** "Задача создана: #<id>", the reply of /newtask. *)
Definition created_text (task_id : Z) : PyStr.str :=
  [0x417; 0x430; 0x434; 0x430; 0x447; 0x430; 0x20; 0x441; 0x43e; 0x437; 0x434;
   0x430; 0x43d; 0x430; 0x3a; 0x20; 0x23]%N ++ PyStr.of_Z task_id.

(** ** More vocabulary *)

(** A field that can stand between two bars. *)
Definition no_bar (s : PyStr.str) : Prop := ~ In (PyStr.chr "|") s.

(** The columns that no statement of the bot writes after the INSERT. *)
Definition frozen_columns (r : Row.t)
  : Z * Z * Z * PyStr.str * PyStr.str * PyStr.str * PyStr.str * PyStr.str
    * PyStr.str * PyStr.str :=
  (Row.id r, Row.chat_id r, Row.created_by_id r, Row.created_by_username r,
   Row.title r, Row.assignee_username r, Row.due_date r, Row.priority r,
   Row.tags r, Row.created_at r).

(** The messages among the effects of a handler. *)
Definition replies (l : list effect) : list message :=
  flat_map (fun e => match e with Reply m => [m] | _ => [] end) l.

(** How a handler ends that has got as far as its reply, with the database
    [db] and the effects [l] behind it: the reply goes out when the update
    has a message, and the handler ends in [AttributeError] when it has
    none. *)
Definition answer (update : Update) (db : DB) (l : list effect) (m : message)
  : result exn unit * DB * list effect :=
  if has_message update then (Ok tt, db, l ++ [Reply m])
  else (Raise AttributeError, db, l).

(** What the handler of [e] can have done, from [db], by the time it is
    about to reply: nothing; one SELECT; for /newtask one INSERT, committed,
    that adds a row; for /done a SELECT and one UPDATE, committed. *)
Definition work_before_reply (db : DB) (e : event) (db' : DB) (l : list effect) : Prop :=
  (db' = db /\ (l = [] \/ l = [SqlSelect])) \/
  (ev_command e = CmdNewtask /\ l = [SqlInsert; SqlCommit] /\
   exists r, rows db' = rows db ++ [r]) \/
  (ev_command e = CmdDone /\ l = [SqlSelect; SqlUpdate; SqlCommit] /\
   exists task_id, rows db' = mark_done task_id (ev_now e) (rows db)).

(** [a] comes before [b] in [l]. *)
Definition before {A} (l : list A) (a b : A) : Prop :=
  exists l1 l2 l3, l = l1 ++ a :: l2 ++ b :: l3.

(** The row /newtask inserts. *)
Definition new_row (db : DB) (update : Update) (created_by : User.t)
    (task : TaskInput.t) (now : PyStr.str) : Row.t :=
  {| Row.id := (fold_right Z.max (seq db) (map Row.id (rows db)) + 1)%Z;
     Row.chat_id := effective_chat update;
     Row.created_by_id := User.id created_by;
     Row.created_by_username := normalize_username (username_or_id created_by);
     Row.title := TaskInput.title task;
     Row.assignee_username := TaskInput.assignee task;
     Row.due_date := TaskInput.due_date task;
     Row.priority := TaskInput.priority task;
     Row.tags := TaskInput.tags task;
     Row.status := StatusOpen;
     Row.created_at := now;
     Row.completed_at := None |}.

(** ** More sample data *)

Definition in_chat_7 : Update :=
  {| effective_chat := 7; effective_user := Some sender; has_message := true |}.

(** What [parse_task_input] makes of "D | bob | 2024-01-03 | low | y". *)
Definition fourth_input : TaskInput.t :=
  {| TaskInput.title := py "D";
     TaskInput.assignee := py "@bob";
     TaskInput.due_date := py "2024-01-03";
     TaskInput.priority := py "low";
     TaskInput.tags := py "y" |}.

(** The third row of [three_priorities]. *)
Definition low_task : Row.t :=
  {| Row.id := 3;
     Row.chat_id := 7;
     Row.created_by_id := 42;
     Row.created_by_username := py "@ann";
     Row.title := py "C";
     Row.assignee_username := py "@bob";
     Row.due_date := py "2024-01-02";
     Row.priority := py "low";
     Row.tags := py "x";
     Row.status := StatusOpen;
     Row.created_at := py "t3";
     Row.completed_at := None |}.

(** * Properties *)

Unset Implicit Arguments.

(** ** Worked examples *)

Example split_keeps_empty_fields :
  PyStr.split (PyStr.chr "|") (py "a|b||") = [py "a"; py "b"; []; []].
Proof. reflexivity. Qed.

Example int_literals :
  PyStr.int (py "007") = Some 7%Z /\ PyStr.int (py "-1") = Some (-1)%Z /\
  PyStr.int (py " 5") = Some 5%Z /\ PyStr.int (py "1_000") = Some 1000%Z /\
  PyStr.int (py "1__0") = None /\ PyStr.int (py "") = None /\
  PyStr.int [0x663%N] = Some 3%Z /\ PyStr.of_Z 1203 = py "1203" /\
  PyStr.of_Z 0 = py "0" /\ PyStr.of_Z (-45) = py "-45".
Proof. repeat split; reflexivity. Qed.

(** [int] skips NEXT LINE (U+0085) but not the separator U+001C, which
    [strip] removes; and it reads 4300 digits but not 4301. *)
Example int_whitespace_and_length :
  PyStr.int [0x85%N; 53%N] = Some 5%Z /\ PyStr.int [0x1c%N; 53%N] = None /\
  PyStr.strip [0x1c%N; 53%N] = [53%N] /\
  PyStr.int (repeat 48%N 4300) = Some 0%Z /\ PyStr.int (repeat 48%N 4301) = None.
Proof. repeat split; vm_compute; reflexivity. Qed.

(** Dates [strptime] refuses: month 13, day 32, 30 February, 29 February of
    a common year, year 0, text after the day, a missing part. *)
Example dates_refused :
  map Datetime.strptime
    [py "2024-13-01"; py "2024-01-32"; py "2024-02-30"; py "2023-02-29";
     py "0000-01-01"; py "2024-01-05x"; py "2024-01"; py "24-01-05"; py ""]
  = [None; None; None; None; None; None; None; None; None].
Proof. vm_compute. reflexivity. Qed.

(** Dates [strptime] takes although they are not in the form YYYY-MM-DD. *)
Example dates_taken_unpadded :
  map Datetime.strptime [py "2024-1-5"; py "2024-01- 5"; py "2024-10-5"]
  = [Some {| Datetime.year := 2024; Datetime.month := 1; Datetime.day := 5 |};
     Some {| Datetime.year := 2024; Datetime.month := 1; Datetime.day := 5 |};
     Some {| Datetime.year := 2024; Datetime.month := 10; Datetime.day := 5 |}].
Proof. vm_compute. reflexivity. Qed.

(** /newtask Ship report | alice | 2024-03-01 | high | urgent,q1 on an empty
    table stores task 1, open, with the normalized assignee. *)
Example ship_report_stored :
  handle no_case_tables
    (sent CmdNewtask 7
       ["Ship"; "report"; "|"; "alice"; "|"; "2024-03-01"; "|"; "high"; "|"; "urgent,q1"]%string
       "2024-02-01 08:00:00")
    (init_db None)
  = (Ok tt,
     {| rows := [ {| Row.id := 1;
                     Row.chat_id := 7;
                     Row.created_by_id := 42;
                     Row.created_by_username := py "@ann";
                     Row.title := py "Ship report";
                     Row.assignee_username := py "@alice";
                     Row.due_date := py "2024-03-01";
                     Row.priority := py "high";
                     Row.tags := py "urgent,q1";
                     Row.status := StatusOpen;
                     Row.created_at := py "2024-02-01 08:00:00";
                     Row.completed_at := None |} ];
        seq := 1 |},
     [SqlInsert; SqlCommit; Reply (Created 1)]).
Proof. vm_compute. reflexivity. Qed.

(** With the priority "urgent" the same command is refused and nothing is
    inserted. *)
Example urgent_refused :
  handle no_case_tables
    (sent CmdNewtask 7
       ["Ship"; "report"; "|"; "alice"; "|"; "2024-03-01"; "|"; "urgent"; "|"; "tag"]%string
       "2024-02-01 08:00:00")
    (init_db None)
  = (Ok tt, init_db None, [Reply (Rejected BadPriority)]).
Proof. vm_compute. reflexivity. Qed.

(** The due date comes first in the listing, and the larger id first among
    tasks of one day and one priority. *)
Example due_date_then_id :
  map Row.id
    (list_open 7
       (rows (run no_case_tables
                [ sent CmdNewtask 7 ["A|bob|2024-01-02|high|"]%string "t1";
                  sent CmdNewtask 7 ["B|bob|2024-01-01|low|"]%string "t2";
                  sent CmdNewtask 7 ["C|bob|2024-01-02|high|"]%string "t3" ]
                (init_db None))))
  = [2%Z; 3%Z; 1%Z].
Proof. vm_compute. reflexivity. Qed.

(** Due dates are compared as text: a task due "2024-10-01" is listed before
    one due "2024-2-1". *)
Example unpadded_dates_sort_as_text :
  map Row.due_date
    (list_open 7
       (rows (run no_case_tables
                [ sent CmdNewtask 7 ["A|bob|2024-2-1|high|"]%string "t1";
                  sent CmdNewtask 7 ["B|bob|2024-10-01|high|"]%string "t2" ]
                (init_db None))))
  = [py "2024-10-01"; py "2024-2-1"].
Proof. vm_compute. reflexivity. Qed.

(** /done with an id too large for SQLite raises before any statement
    runs; /done -1 and /done without argument get the usage line; /done in
    an edited message closes the task and then fails to reply. *)
Example done_arguments :
  done in_chat_7 [py "9223372036854775808"] (py "t") three_priorities
    = (Raise OverflowError, three_priorities, []) /\
  done in_chat_7 [py "-1"] (py "t") three_priorities
    = (Ok tt, three_priorities, [Reply DoneUsage]) /\
  done in_chat_7 [] (py "t") three_priorities
    = (Ok tt, three_priorities, [Reply DoneUsage]) /\
  done {| effective_chat := 8; effective_user := Some sender; has_message := true |}
       [py "1"] (py "t") three_priorities
    = (Ok tt, three_priorities, [SqlSelect; Reply NotFound]) /\
  done {| effective_chat := 7; effective_user := Some sender; has_message := false |}
       [py "1"] (py "t") three_priorities
    = (Raise AttributeError,
       {| rows := mark_done 1 (py "t") (rows three_priorities);
          seq := seq three_priorities |},
       [SqlSelect; SqlUpdate; SqlCommit]).
Proof. repeat split; vm_compute; reflexivity. Qed.

(** ** Facts about strings *)

Lemma str_eqb_eq (a b : PyStr.str) : PyStr.eqb a b = true <-> a = b.
Proof.
  revert b; induction a as [|x a IH]; intros [|y b]; simpl; split;
    try congruence; try discriminate.
  - intros H. apply andb_true_iff in H as [Hxy Hab].
    apply N.eqb_eq in Hxy. apply IH in Hab. congruence.
  - intros H. injection H as -> ->.
    rewrite N.eqb_refl. simpl. now apply IH.
Qed.

Lemma str_compare_refl (a : PyStr.str) : PyStr.compare a a = Eq.
Proof.
  induction a as [|x a IH]; simpl; [reflexivity|].
  now rewrite N.compare_refl.
Qed.

Lemma str_compare_eq (a b : PyStr.str) : PyStr.compare a b = Eq -> a = b.
Proof.
  revert b; induction a as [|x a IH]; intros [|y b]; simpl;
    try congruence; try discriminate.
  destruct (x ?= y)%N eqn:E; try discriminate.
  apply N.compare_eq in E. intros H. apply IH in H. congruence.
Qed.

Lemma str_compare_antisym (a b : PyStr.str) :
  PyStr.compare b a = CompOpp (PyStr.compare a b).
Proof.
  revert b; induction a as [|x a IH]; intros [|y b]; simpl; try reflexivity.
  rewrite (N.compare_antisym x y).
  destruct (x ?= y)%N; simpl; auto.
Qed.

Lemma str_compare_lt_trans (a b c : PyStr.str) :
  PyStr.compare a b = Lt -> PyStr.compare b c = Lt -> PyStr.compare a c = Lt.
Proof.
  revert b c; induction a as [|x a IH]; intros [|y b] [|z c]; simpl;
    try congruence; try discriminate.
  destruct (x ?= y)%N eqn:Exy; try discriminate;
    destruct (y ?= z)%N eqn:Eyz; try discriminate; intros H1 H2.
  - apply N.compare_eq in Exy, Eyz. subst. rewrite N.compare_refl. eauto.
  - apply N.compare_eq in Exy. subst. now rewrite Eyz.
  - apply N.compare_eq in Eyz. subst. now rewrite Exy.
  - rewrite N.compare_lt_iff in Exy, Eyz.
    assert (Hxz : (x ?= z)%N = Lt) by (apply N.compare_lt_iff; lia).
    now rewrite Hxz.
Qed.

(** What [lstrip] removes is whitespace, and what it leaves does not start
    with any. *)
Lemma lstrip_spec (s : PyStr.str) :
  exists ws, s = ws ++ PyStr.lstrip s /\ forallb PyStr.isspace ws = true.
Proof.
  induction s as [|c s [ws [Hs Hws]]]; simpl.
  - exists []. split; reflexivity.
  - destruct (PyStr.isspace c) eqn:E.
    + exists (c :: ws). simpl. rewrite E, Hws. split; [now f_equal | reflexivity].
    + exists []. split; reflexivity.
Qed.

Lemma lstrip_head (s : PyStr.str) (c : PyStr.char) (r : PyStr.str) :
  PyStr.lstrip s = c :: r -> PyStr.isspace c = false.
Proof.
  induction s as [|x s IH]; simpl; [discriminate|].
  destruct (PyStr.isspace x) eqn:E; [exact IH|].
  intros H. injection H as -> _. exact E.
Qed.

Lemma forallb_rev {A} (p : A -> bool) (l : list A) :
  forallb p (rev l) = forallb p l.
Proof.
  induction l as [|x l IH]; simpl; [reflexivity|].
  rewrite forallb_app, IH. simpl. rewrite andb_true_r. apply andb_comm.
Qed.

(** [strip] cuts a run of whitespace from each end and stops at the first
    character that is not whitespace. *)
Lemma strip_spec (s : PyStr.str) :
  exists l r,
    s = l ++ PyStr.strip s ++ r /\
    forallb PyStr.isspace l = true /\ forallb PyStr.isspace r = true /\
    trimmed (PyStr.strip s).
Proof.
  unfold PyStr.strip, PyStr.rstrip.
  destruct (lstrip_spec s) as [l [Hs Hl]].
  destruct (lstrip_spec (rev (PyStr.lstrip s))) as [w [Ht Hw]].
  set (t := PyStr.lstrip s) in *.
  set (u := PyStr.lstrip (rev t)) in *.
  assert (Htu : t = rev u ++ rev w).
  { rewrite <- rev_app_distr, <- Ht. now rewrite rev_involutive. }
  exists l, (rev w). repeat split.
  - now rewrite <- Htu.
  - exact Hl.
  - now rewrite forallb_rev.
  - intros c r Hc. apply (lstrip_head s c (r ++ rev w)).
    fold t. rewrite Htu, Hc. reflexivity.
  - intros c r Hc. apply (lstrip_head (rev t) c (rev r)).
    fold u. rewrite <- (rev_involutive u), Hc, rev_app_distr. reflexivity.
Qed.

(** [split] cuts at every separator: one field more than separators, and
    joining the fields with the separator gives the input back. *)
Lemma split_length (sep : PyStr.char) (s : PyStr.str) :
  length (PyStr.split sep s) = S (count_occ N.eq_dec s sep).
Proof.
  induction s as [|c s IH]; simpl; [reflexivity|].
  destruct (N.eqb_spec c sep) as [->|Hne].
  - destruct (N.eq_dec sep sep); [|congruence]. simpl. now rewrite IH.
  - destruct (N.eq_dec c sep); [congruence|].
    destruct (PyStr.split sep s); simpl in *; [discriminate|exact IH].
Qed.

Lemma split_join (sep : PyStr.char) (s : PyStr.str) :
  PyStr.join [sep] (PyStr.split sep s) = s.
Proof.
  induction s as [|c s IH]; simpl; [reflexivity|].
  destruct (N.eqb_spec c sep) as [->|Hne].
  - destruct (PyStr.split sep s) eqn:E; simpl in *.
    + pose proof (split_length sep s) as H. rewrite E in H. discriminate.
    + now rewrite IH.
  - destruct (PyStr.split sep s) as [|f fs] eqn:E; simpl in *.
    + pose proof (split_length sep s) as H. rewrite E in H. discriminate.
    + destruct fs; simpl in *; now rewrite <- IH.
Qed.

(** [strip] leaves alone what has no whitespace at its ends. *)
Lemma strip_trimmed (s : PyStr.str) : trimmed s -> PyStr.strip s = s.
Proof.
  intros [Hfirst Hlast].
  destruct (strip_spec s) as [l [r [E [Hl [Hr _]]]]].
  assert (L : l = []).
  { destruct l as [|x l]; [reflexivity|]. cbn [forallb] in Hl.
    apply andb_true_iff in Hl as [Hx _].
    rewrite (Hfirst x (l ++ PyStr.strip s ++ r)) in Hx; [discriminate | exact E]. }
  assert (R : r = []).
  { destruct r as [|y r0]; [reflexivity|]. exfalso.
    destruct (@exists_last _ (y :: r0)) as [r' [x Er]]; [discriminate|].
    rewrite Er in Hr, E. rewrite forallb_app in Hr.
    apply andb_true_iff in Hr as [_ Hx]. cbn [forallb] in Hx.
    apply andb_true_iff in Hx as [Hx _].
    rewrite (Hlast x (l ++ PyStr.strip s ++ r')) in Hx; [discriminate|].
    rewrite E at 1. now rewrite <- !app_assoc. }
  subst l r. rewrite app_nil_r in E. now symmetry.
Qed.

Lemma split_whole (sep : PyStr.char) (f : PyStr.str) :
  ~ In sep f -> PyStr.split sep f = [f].
Proof.
  induction f as [|c f IH]; intros H; cbn [PyStr.split]; [reflexivity|].
  destruct (N.eqb_spec c sep) as [->|_]; [exfalso; apply H; now left|].
  rewrite IH; [reflexivity|]. intros Hin. apply H. now right.
Qed.

Lemma split_field (sep : PyStr.char) (f rest : PyStr.str) :
  ~ In sep f -> PyStr.split sep (f ++ sep :: rest) = f :: PyStr.split sep rest.
Proof.
  induction f as [|c f IH]; intros H; cbn [app PyStr.split].
  - now rewrite N.eqb_refl.
  - destruct (N.eqb_spec c sep) as [->|_]; [exfalso; apply H; now left|].
    rewrite IH; [reflexivity|]. intros Hin. apply H. now right.
Qed.

(** Splitting what was joined gives the parts back, when no part holds the
    separator. *)
Lemma split_of_join (sep : PyStr.char) (parts : list PyStr.str) :
  parts <> [] -> Forall (fun f => ~ In sep f) parts ->
  PyStr.split sep (PyStr.join [sep] parts) = parts.
Proof.
  induction parts as [|p ps IH]; [congruence|]. intros _ H.
  apply Forall_cons_iff in H as [Hp Hps].
  destruct ps as [|q ps].
  - cbn [PyStr.join]. now apply split_whole.
  - change (PyStr.join [sep] (p :: q :: ps))
      with (p ++ [sep] ++ PyStr.join [sep] (q :: ps)).
    cbn [app]. rewrite split_field by exact Hp.
    rewrite IH; [reflexivity | discriminate | exact Hps].
Qed.

Lemma lstrip_ws_app (l x : PyStr.str) :
  forallb PyStr.isspace l = true -> PyStr.lstrip (l ++ x) = PyStr.lstrip x.
Proof.
  induction l as [|c l IH]; cbn [forallb app PyStr.lstrip]; [reflexivity|].
  intros H. apply andb_true_iff in H as [Hc Hl]. rewrite Hc. now apply IH.
Qed.

Lemma lstrip_ws (l : PyStr.str) :
  forallb PyStr.isspace l = true -> PyStr.lstrip l = [].
Proof.
  intros H. rewrite <- (app_nil_r l). now rewrite lstrip_ws_app.
Qed.

(** [strip] is the one way to trim. *)
Lemma trim_of_strip (part field : PyStr.str) :
  trim_of part field -> PyStr.strip part = field.
Proof.
  intros [l [r [-> [Hl [Hr Ht]]]]].
  unfold PyStr.strip. rewrite lstrip_ws_app by exact Hl.
  destruct field as [|c f].
  - cbn [app]. now rewrite lstrip_ws by exact Hr.
  - pose proof (strip_trimmed (c :: f) Ht) as S.
    destruct Ht as [Hfirst _].
    unfold PyStr.strip in S. cbn [PyStr.lstrip] in S.
    rewrite (Hfirst c f eq_refl) in S.
    cbn [app PyStr.lstrip]. rewrite (Hfirst c f eq_refl).
    unfold PyStr.rstrip in *.
    change (c :: f ++ r) with ((c :: f) ++ r). rewrite rev_app_distr.
    rewrite lstrip_ws_app by now rewrite forallb_rev.
    exact S.
Qed.

(** No field of [split] holds the separator. *)
Lemma split_no_sep (sep : PyStr.char) (s : PyStr.str) :
  Forall (fun f => ~ In sep f) (PyStr.split sep s).
Proof.
  induction s as [|c s IH]; cbn [PyStr.split].
  - constructor; [intros []|constructor].
  - destruct (N.eqb_spec c sep) as [->|Hne].
    + constructor; [intros []|exact IH].
    + destruct (PyStr.split sep s) as [|f fs].
      * constructor; [|constructor]. intros [H|[]]. congruence.
      * apply Forall_cons_iff in IH as [Hf Hfs].
        constructor; [|exact Hfs]. intros [H|H]; [congruence|contradiction].
Qed.

(** ** Facts about ORDER BY *)

Lemma order_cmp_antisym (a b : Row.t) : order_cmp b a = CompOpp (order_cmp a b).
Proof.
  unfold order_cmp.
  rewrite (str_compare_antisym (Row.due_date a) (Row.due_date b)).
  destruct (PyStr.compare (Row.due_date a) (Row.due_date b)); simpl; auto.
  rewrite (str_compare_antisym (Row.priority b) (Row.priority a)).
  destruct (PyStr.compare (Row.priority b) (Row.priority a)); simpl; auto.
  apply Z.compare_antisym.
Qed.

Lemma order_leb_total (a b : Row.t) : order_leb a b = true \/ order_leb b a = true.
Proof.
  unfold order_leb. rewrite (order_cmp_antisym a b).
  destruct (order_cmp a b); simpl; auto.
Qed.

(** A comparison that is not [Gt] is [Eq], and then the strings are equal,
    or [Lt]. *)
Lemma str_compare_cases (a b : PyStr.str) :
  PyStr.compare a b = Gt \/ a = b \/ PyStr.compare a b = Lt.
Proof.
  destruct (PyStr.compare a b) eqn:E; auto.
  right; left. now apply str_compare_eq.
Qed.

Lemma order_leb_trans (a b c : Row.t) :
  order_leb a b = true -> order_leb b c = true -> order_leb a c = true.
Proof.
  unfold order_leb, order_cmp.
  destruct (str_compare_cases (Row.due_date a) (Row.due_date b)) as [E1|[E1|E1]];
    [rewrite E1; discriminate| |];
  (destruct (str_compare_cases (Row.due_date b) (Row.due_date c)) as [E2|[E2|E2]];
    [rewrite E2; intros _; discriminate| |]).
  - rewrite E1, <- E2, str_compare_refl.
    destruct (str_compare_cases (Row.priority b) (Row.priority a)) as [F1|[F1|F1]];
      [rewrite F1; discriminate| |];
    (destruct (str_compare_cases (Row.priority c) (Row.priority b)) as [F2|[F2|F2]];
      [rewrite F2; intros _; discriminate| |]).
    + rewrite F2, F1, str_compare_refl.
      destruct (Row.id b ?= Row.id a)%Z eqn:G1; try discriminate;
        destruct (Row.id c ?= Row.id b)%Z eqn:G2; try discriminate;
        intros _ _;
        destruct (Row.id c ?= Row.id a)%Z eqn:G3; try reflexivity;
        rewrite ?Z.compare_eq_iff, ?Z.compare_lt_iff, ?Z.compare_gt_iff in *; lia.
    + rewrite <- F1, str_compare_refl, F2. reflexivity.
    + rewrite F2, F1. reflexivity.
    + rewrite F1, F2, (str_compare_lt_trans _ _ _ F2 F1). reflexivity.
  - rewrite E1, E2. reflexivity.
  - rewrite <- E2, E1. reflexivity.
  - rewrite (str_compare_lt_trans _ _ _ E1 E2). reflexivity.
Qed.

Lemma insert_sorted_perm (r : Row.t) (l : list Row.t) :
  Permutation (insert_sorted r l) (r :: l).
Proof.
  induction l as [|x l IH]; simpl; [apply Permutation_refl|].
  destruct (order_leb r x); [apply Permutation_refl|].
  eapply perm_trans; [apply perm_skip, IH | apply perm_swap].
Qed.

Lemma order_by_perm (l : list Row.t) : Permutation (order_by l) l.
Proof.
  induction l as [|r l IH]; simpl; [constructor|].
  eapply perm_trans; [apply insert_sorted_perm | now apply perm_skip].
Qed.

Lemma insert_sorted_keeps (r : Row.t) (l : list Row.t) :
  StronglySorted listed_before l -> StronglySorted listed_before (insert_sorted r l).
Proof.
  induction 1 as [|x l Hl IH Hx]; simpl.
  - repeat constructor.
  - destruct (order_leb r x) eqn:E.
    + constructor; [now constructor|].
      constructor; [exact E|].
      eapply Forall_impl; [|exact Hx].
      intros y Hy. exact (order_leb_trans _ _ _ E Hy).
    + constructor; [exact IH|].
      assert (Hxr : listed_before x r).
      { destruct (order_leb_total r x) as [H|H]; [congruence | exact H]. }
      eapply Permutation_Forall; [apply Permutation_sym, insert_sorted_perm|].
      now constructor.
Qed.

Lemma order_by_sorted (l : list Row.t) : StronglySorted listed_before (order_by l).
Proof.
  induction l as [|r l IH]; simpl; [constructor | now apply insert_sorted_keeps].
Qed.

Lemma order_by_in (l : list Row.t) (r : Row.t) : In r (order_by l) <-> In r l.
Proof.
  split; apply Permutation_in;
    [apply order_by_perm | apply Permutation_sym, order_by_perm].
Qed.

Lemma status_eqb_eq (a b : Status) : status_eqb a b = true <-> a = b.
Proof. destruct a, b; simpl; split; congruence. Qed.

(** ** The listings *)

Lemma list_open_in (chat : Z) (table : list Row.t) (r : Row.t) :
  In r (list_open chat table) <->
  In r table /\ Row.chat_id r = chat /\ Row.status r = StatusOpen.
Proof.
  unfold list_open. rewrite order_by_in, filter_In, andb_true_iff.
  now rewrite Z.eqb_eq, status_eqb_eq.
Qed.

Lemma list_open_for_assignee_in (chat : Z) (name : PyStr.str)
    (table : list Row.t) (r : Row.t) :
  In r (list_open_for_assignee chat name table) <->
  In r table /\ Row.chat_id r = chat /\ Row.status r = StatusOpen /\
  Row.assignee_username r = name.
Proof.
  unfold list_open_for_assignee.
  rewrite order_by_in, filter_In, !andb_true_iff.
  rewrite Z.eqb_eq, status_eqb_eq, str_eqb_eq. tauto.
Qed.

(** Both listings come out in the order of the ORDER BY clause, which
    compares the priority column as text. *)
Lemma listings_sorted (chat : Z) (name : PyStr.str) (table : list Row.t) :
  StronglySorted listed_before (list_open chat table) /\
  StronglySorted listed_before (list_open_for_assignee chat name table).
Proof. split; apply order_by_sorted. Qed.

(** As text, "medium" is above "low", which is above "high": of two rows due
    the same day, ORDER BY puts the medium one before the low one and the
    low one before the high one, whatever their ids. *)
Lemma priority_compared_as_text (a b : Row.t) :
  Row.due_date a = Row.due_date b ->
  (Row.priority a = py "medium" /\ Row.priority b = py "low") \/
  (Row.priority a = py "medium" /\ Row.priority b = py "high") \/
  (Row.priority a = py "low" /\ Row.priority b = py "high") ->
  order_cmp a b = Lt /\ order_leb b a = false.
Proof.
  intros Hd Hp.
  assert (E : order_cmp a b = Lt).
  { unfold order_cmp. rewrite Hd, str_compare_refl.
    destruct Hp as [[-> ->]|[[-> ->]|[-> ->]]]; reflexivity. }
  split; [exact E|].
  unfold order_leb. now rewrite (order_cmp_antisym a b), E.
Qed.

(** C1.  The listings do not put high before medium before low: the
    priority column is text and is sorted as text, descending, which is
    medium, low, high.  Three tasks for the same day, created through
    /newtask as high (#1), medium (#2) and low (#3), are listed by /tasks and
    by the /mytasks query as #2 medium, #3 low, #1 high. *)
Theorem listings_put_high_last :
  map (fun r => (Row.id r, Row.priority r)) (list_open 7 (rows three_priorities))
    = [(2%Z, py "medium"); (3%Z, py "low"); (1%Z, py "high")] /\
  map (fun r => (Row.id r, Row.priority r))
      (list_open_for_assignee 7 (py "@bob") (rows three_priorities))
    = [(2%Z, py "medium"); (3%Z, py "low"); (1%Z, py "high")] /\
  map Row.due_date (rows three_priorities)
    = [py "2024-01-02"; py "2024-01-02"; py "2024-01-02"].
Proof. repeat split; vm_compute; reflexivity. Qed.

(** C6.  [list_open] returns exactly the open tasks of the chat it is asked
    about: a row is listed if and only if it is in the table with that
    chat_id and status open, each as often as it is in the table; and when
    the chat has no open task the result is the empty list and /tasks, sent
    as a message, answers normally that there are none (in an edited message
    the SELECT runs as well and it is the reply that fails). *)
Theorem list_open_exact (chat : Z) (table : list Row.t) :
  (forall r, In r (list_open chat table) <->
             In r table /\ Row.chat_id r = chat /\ Row.status r = StatusOpen) /\
  Permutation (list_open chat table)
    (filter (fun r => (Row.chat_id r =? chat)%Z && status_eqb (Row.status r) StatusOpen)
       table) /\
  ((forall r, In r table -> Row.chat_id r = chat -> Row.status r = StatusDone) ->
   list_open chat table = [] /\
   forall update args n,
     effective_chat update = chat ->
     tasks update args {| rows := table; seq := n |}
       = if has_message update
         then (Ok tt, {| rows := table; seq := n |}, [SqlSelect; Reply NoOpenTasks])
         else (Raise AttributeError, {| rows := table; seq := n |}, [SqlSelect])).
Proof.
  split; [intros r; apply list_open_in|].
  split; [apply order_by_perm|].
  intros Hnone.
  assert (Hnil : list_open chat table = []).
  { destruct (list_open chat table) as [|r l] eqn:E; [reflexivity|].
    assert (Hr : In r (list_open chat table)) by (rewrite E; now left).
    apply list_open_in in Hr as [Hin [Hc Hs]].
    specialize (Hnone r Hin Hc). congruence. }
  split; [exact Hnil|].
  intros update args n <-.
  unfold tasks, bind, sql_list_open, reply. cbn [rows]. rewrite Hnil.
  now destruct (has_message update).
Qed.

(** ** Facts about [strptime] *)

(** An ASCII digit is a decimal character worth its distance from "0", and it
    is neither whitespace nor a sign nor an underscore. *)
Lemma ascii_digit_value (c : PyStr.char) :
  (48 <= c <= 57)%N -> PyStr.decimal_value c = Some (c - 48)%N.
Proof.
  intros H. unfold PyStr.decimal_value, PyStr.decimal_blocks. cbn [find].
  assert (E : ((48 <=? c) && (c <? 48 + 10))%N = true).
  { apply andb_true_iff. split; [apply N.leb_le | apply N.ltb_lt]; lia. }
  change 0x30%N with 48%N. now rewrite E.
Qed.

Lemma ascii_digit_not_space (c : PyStr.char) :
  (48 <= c <= 57)%N -> PyStr.isspace c = false.
Proof.
  intros H. destruct (PyStr.isspace c) eqn:E; [|reflexivity].
  unfold PyStr.isspace, PyStr.in_ranges in E.
  apply existsb_exists in E as [[lo hi] [Hin Hc]].
  apply andb_true_iff in Hc as [Hlo Hhi].
  apply N.leb_le in Hlo, Hhi. cbn [fst snd] in *.
  unfold PyStr.whitespace_ranges in Hin. cbn [In] in Hin.
  repeat (destruct Hin as [Hin|Hin]; [injection Hin as <- <-; lia|]).
  destruct Hin.
Qed.

Lemma digit_range (k : Z) : (0 <= k <= 9)%Z -> (48 <= digit k <= 57)%N.
Proof. unfold digit. lia. Qed.

Lemma ascii_digit_not_char (c : PyStr.char) (a : ascii) :
  (48 <= c <= 57)%N -> (PyStr.chr a < 48 \/ 57 < PyStr.chr a)%N ->
  (c =? PyStr.chr a)%N = false.
Proof. intros Hc Ha. apply N.eqb_neq. lia. Qed.

(** [int] skips less whitespace than [strip] does. *)
Lemma isspace_int_isspace (c : PyStr.char) :
  PyStr.isspace c = false -> PyStr.isspace_int c = false.
Proof. intros H. unfold PyStr.isspace_int. now rewrite H. Qed.

Lemma lstrip_int_plain (s : PyStr.str) :
  Forall (fun c => PyStr.isspace_int c = false) s -> PyStr.lstrip_int s = s.
Proof.
  destruct 1 as [|c s Hc _]; [reflexivity|].
  cbn [PyStr.lstrip_int]. now rewrite Hc.
Qed.

Lemma strip_int_plain (s : PyStr.str) :
  Forall (fun c => PyStr.isspace c = false) s -> PyStr.strip_int s = s.
Proof.
  intros H.
  assert (H' : Forall (fun c => PyStr.isspace_int c = false) s).
  { eapply Forall_impl; [|exact H]. apply isspace_int_isspace. }
  unfold PyStr.strip_int. rewrite (lstrip_int_plain s H').
  rewrite lstrip_int_plain by now apply Forall_rev.
  apply rev_involutive.
Qed.

(** Below the limit on digits, [int_unsigned] is [int_digits]. *)
Lemma int_unsigned_short (s : PyStr.str) :
  (N.of_nat (length s) <= PyStr.max_str_digits)%N ->
  PyStr.int_unsigned s = PyStr.int_digits 0 false s.
Proof.
  intros H. unfold PyStr.int_unsigned.
  pose proof (filter_length_le (fun c => negb (c =? PyStr.chr "_")%N) s) as L.
  assert (E : (PyStr.max_str_digits
               <? N.of_nat (length (filter (fun c => negb (c =? PyStr.chr "_")%N) s)))%N
              = false).
  { apply N.ltb_ge. eapply N.le_trans; [|exact H].
    clear H. unfold PyStr.str, PyStr.char in *. lia. }
  now rewrite E.
Qed.

(** What [int_unsigned] returns, [int_digits] has read. *)
Lemma int_unsigned_some (s : PyStr.str) (n : Z) :
  PyStr.int_unsigned s = Some n -> PyStr.int_digits 0 false s = Some n.
Proof.
  unfold PyStr.int_unsigned. now destruct (_ <? _)%N.
Qed.

(** [int] of four ASCII digits. *)
Lemma int_four_ascii_digits (c1 c2 c3 c4 : PyStr.char) :
  (48 <= c1 <= 57)%N -> (48 <= c2 <= 57)%N ->
  (48 <= c3 <= 57)%N -> (48 <= c4 <= 57)%N ->
  PyStr.int [c1; c2; c3; c4]
    = Some (1000 * Z.of_N (c1 - 48) + 100 * Z.of_N (c2 - 48)
            + 10 * Z.of_N (c3 - 48) + Z.of_N (c4 - 48))%Z.
Proof.
  intros H1 H2 H3 H4.
  unfold PyStr.int. rewrite strip_int_plain
    by (repeat constructor; now apply ascii_digit_not_space).
  rewrite !(ascii_digit_not_char c1) by first [assumption | left; reflexivity | right; reflexivity].
  rewrite int_unsigned_short by (cbn [length]; unfold PyStr.max_str_digits; lia).
  cbn [PyStr.int_digits].
  rewrite !(ascii_digit_not_char c1), !(ascii_digit_not_char c2),
    !(ascii_digit_not_char c3), !(ascii_digit_not_char c4)
    by first [assumption | left; reflexivity | right; reflexivity].
  rewrite !ascii_digit_value by assumption.
  f_equal. lia.
Qed.

Lemma int_four_digits (y : Z) :
  (0 <= y <= 9999)%Z -> PyStr.int (four_digits y) = Some y.
Proof.
  intros Hy. unfold four_digits.
  rewrite int_four_ascii_digits;
    try (apply digit_range; Z.div_mod_to_equations; lia).
  f_equal. unfold digit. Z.div_mod_to_equations. lia.
Qed.

Lemma format_regex_year (c1 c2 c3 c4 : PyStr.char) (r : PyStr.str) :
  PyStr.isdecimal_char c1 = true -> PyStr.isdecimal_char c2 = true ->
  PyStr.isdecimal_char c3 = true -> PyStr.isdecimal_char c4 = true ->
  Datetime.format_regex (c1 :: c2 :: c3 :: c4 :: r)
    = map (fun md => {| Datetime.group_Y := [c1; c2; c3; c4];
                        Datetime.group_m := fst (fst md);
                        Datetime.group_d := snd (fst md);
                        Datetime.rest := snd md |})
          (Datetime.month_day r).
Proof.
  intros H1 H2 H3 H4.
  unfold Datetime.format_regex, Datetime.directive_Y, Datetime.rx_seq,
    Datetime.rx_d, Datetime.rx_class.
  rewrite H1. cbn [flat_map map fst snd app].
  rewrite H2. cbn [flat_map map fst snd app].
  rewrite H3. cbn [flat_map map fst snd app].
  rewrite H4. cbn [flat_map map fst snd app].
  apply app_nil_r.
Qed.

Lemma ascii_digit_decimal (c : PyStr.char) :
  (48 <= c <= 57)%N -> PyStr.isdecimal_char c = true.
Proof.
  intros H. unfold PyStr.isdecimal_char. now rewrite ascii_digit_value.
Qed.

Lemma in_one_to (hi : nat) (n : Z) :
  (1 <= n <= Z.of_nat hi)%Z -> In n (one_to hi).
Proof.
  intros H. apply in_map_iff. exists (Z.to_nat n). split; [lia|].
  apply in_seq. lia.
Qed.

(** After the year, a zero-padded month and day match in full at the first
    attempt: checked for the 12 x 31 pairs. *)
Lemma month_day_table :
  forallb (fun m => forallb (iso_month_day_first m) (one_to 31)) (one_to 12) = true.
Proof. vm_compute. reflexivity. Qed.

Lemma month_day_iso (m d : Z) :
  (1 <= m <= 12)%Z -> (1 <= d <= 31)%Z ->
  exists more,
    Datetime.month_day (py "-" ++ two_digits m ++ py "-" ++ two_digits d)
    = (two_digits m, two_digits d, []) :: more.
Proof.
  intros Hm Hd.
  pose proof month_day_table as T.
  rewrite forallb_forall in T.
  specialize (T m (in_one_to 12 m Hm)).
  rewrite forallb_forall in T.
  specialize (T d (in_one_to 31 d Hd)).
  unfold iso_month_day_first in T.
  destruct (Datetime.month_day _) as [|[[mm dd] [|c r]] more];
    try discriminate.
  apply andb_true_iff in T as [Em Ed].
  apply str_eqb_eq in Em, Ed. subst. now exists more.
Qed.

Lemma int_two_digits_table :
  forallb (fun n => match PyStr.int (two_digits n) with
                    | Some k => (k =? n)%Z
                    | None => false
                    end) (one_to 31) = true.
Proof. vm_compute. reflexivity. Qed.

Lemma int_two_digits (n : Z) :
  (1 <= n <= 31)%Z -> PyStr.int (two_digits n) = Some n.
Proof.
  intros H. pose proof int_two_digits_table as T.
  rewrite forallb_forall in T. specialize (T n (in_one_to 31 n H)).
  destruct (PyStr.int (two_digits n)); [|discriminate].
  apply Z.eqb_eq in T. now subst.
Qed.

(** Every calendar date in its ISO form is accepted, as that date. *)
Lemma strptime_isoformat (y m d : Z) :
  Datetime.make_date y m d <> None ->
  Datetime.strptime (isoformat y m d) = Datetime.make_date y m d.
Proof.
  intros H.
  assert (B : (1 <= y <= 9999)%Z /\ (1 <= m <= 12)%Z /\ (1 <= d <= 31)%Z).
  { unfold Datetime.make_date in H.
    destruct (_ && _)%bool eqn:E in H; [|congruence].
    repeat (apply andb_true_iff in E as [E ?]).
    assert ((d <=? 31)%Z = true).
    { apply Z.leb_le. unfold Datetime.days_in_month in *.
      destruct (m =? 2)%Z; [destruct (Datetime.is_leap y)|destruct (_ || _)%bool]; lia. }
    lia. }
  destruct B as [Hy [Hm Hd]].
  unfold Datetime.strptime, isoformat, four_digits. cbn [app].
  rewrite format_regex_year;
    try (apply ascii_digit_decimal, digit_range; Z.div_mod_to_equations; lia).
  destruct (month_day_iso m d Hm Hd) as [more E].
  rewrite E.
  cbn [map fst snd Datetime.rest Datetime.group_Y Datetime.group_m Datetime.group_d].
  fold (four_digits y).
  rewrite int_four_digits by lia.
  now rewrite !int_two_digits by lia.
Qed.

Lemma rx_class_prefix (p : PyStr.char -> bool) :
  prefix_matcher (Datetime.rx_class p) 1 1.
Proof.
  intros [|c s] m r; cbn; [tauto|].
  destruct (p c); cbn; [|tauto].
  intros [E|[]]. injection E as <- <-. cbn. split; [reflexivity | lia].
Qed.

Lemma rx_seq_prefix (a b : Datetime.rx) (la ha lb hb : nat) :
  prefix_matcher a la ha -> prefix_matcher b lb hb ->
  prefix_matcher (Datetime.rx_seq a b) (la + lb) (ha + hb).
Proof.
  intros Ha Hb s m r Hin. unfold Datetime.rx_seq in Hin.
  apply in_flat_map in Hin as [[m1 r1] [H1 H2]].
  apply in_map_iff in H2 as [[m2 r2] [E H2]].
  cbn [fst snd] in *. injection E as <- <-.
  apply Ha in H1 as [-> L1]. apply Hb in H2 as [-> L2].
  rewrite length_app, <- app_assoc. split; [reflexivity | lia].
Qed.

Lemma rx_alt_prefix (a b : Datetime.rx) (lo hi : nat) :
  prefix_matcher a lo hi -> prefix_matcher b lo hi ->
  prefix_matcher (Datetime.rx_alt a b) lo hi.
Proof.
  intros Ha Hb s m r Hin. unfold Datetime.rx_alt in Hin.
  apply in_app_or in Hin as [H|H]; [now apply Ha | now apply Hb].
Qed.

Lemma prefix_matcher_weaken (a : Datetime.rx) (lo hi lo' hi' : nat) :
  (lo' <= lo)%nat -> (hi <= hi')%nat ->
  prefix_matcher a lo hi -> prefix_matcher a lo' hi'.
Proof.
  intros Hl Hh Ha s m r Hin. apply Ha in Hin as [E L]. split; [exact E | lia].
Qed.

Lemma directive_m_prefix : prefix_matcher Datetime.directive_m 1 2.
Proof.
  unfold Datetime.directive_m, Datetime.rx_char, Datetime.rx_range.
  repeat apply rx_alt_prefix;
    first [ apply (prefix_matcher_weaken _ 2 2);
            [lia | lia
            | exact (rx_seq_prefix _ _ 1 1 1 1 (rx_class_prefix _) (rx_class_prefix _))]
          | apply (prefix_matcher_weaken _ 1 1); [lia | lia | apply rx_class_prefix] ].
Qed.

Lemma directive_d_prefix : prefix_matcher Datetime.directive_d 1 2.
Proof.
  unfold Datetime.directive_d, Datetime.rx_char, Datetime.rx_range, Datetime.rx_d.
  repeat apply rx_alt_prefix;
    first [ apply (prefix_matcher_weaken _ 2 2);
            [lia | lia
            | exact (rx_seq_prefix _ _ 1 1 1 1 (rx_class_prefix _) (rx_class_prefix _))]
          | apply (prefix_matcher_weaken _ 1 1); [lia | lia | apply rx_class_prefix] ].
Qed.

Lemma directive_Y_prefix : prefix_matcher Datetime.directive_Y 4 4.
Proof.
  unfold Datetime.directive_Y, Datetime.rx_d.
  exact (rx_seq_prefix _ _ 1 1 3 3 (rx_class_prefix _)
           (rx_seq_prefix _ _ 1 1 2 2 (rx_class_prefix _)
              (rx_seq_prefix _ _ 1 1 1 1 (rx_class_prefix _) (rx_class_prefix _)))).
Qed.

(** What [strptime] accepts is a day of the calendar, written as four
    characters for the year, a dash, one or two for the month, a dash and one
    or two for the day, with nothing after. *)
Lemma strptime_accepts_only_dates (s : PyStr.str) (dt : Datetime.date) :
  Datetime.strptime s = Some dt ->
  (exists y m d,
      s = y ++ py "-" ++ m ++ py "-" ++ d /\
      length y = 4%nat /\ (1 <= length m <= 2)%nat /\ (1 <= length d <= 2)%nat /\
      PyStr.int y = Some (Datetime.year dt) /\
      PyStr.int m = Some (Datetime.month dt) /\
      PyStr.int d = Some (Datetime.day dt)) /\
  (1 <= Datetime.year dt <= 9999)%Z /\
  (1 <= Datetime.month dt <= 12)%Z /\
  (1 <= Datetime.day dt <= Datetime.days_in_month (Datetime.year dt) (Datetime.month dt))%Z.
Proof.
  unfold Datetime.strptime.
  destruct (Datetime.format_regex s) as [|f more] eqn:E; [discriminate|].
  destruct (Datetime.rest f) eqn:Er; [|discriminate].
  destruct (PyStr.int (Datetime.group_Y f)) as [y|] eqn:Ey; [|discriminate].
  destruct (PyStr.int (Datetime.group_m f)) as [m|] eqn:Em; [|discriminate].
  destruct (PyStr.int (Datetime.group_d f)) as [d|] eqn:Ed; [|discriminate].
  unfold Datetime.make_date.
  destruct (_ && _)%bool eqn:V; [|discriminate].
  intros H. injection H as <-. cbn [Datetime.year Datetime.month Datetime.day].
  repeat (apply andb_true_iff in V as [V ?]).
  split; [|lia].
  assert (Hf : In f (Datetime.format_regex s)) by (rewrite E; now left).
  unfold Datetime.format_regex in Hf.
  apply in_flat_map in Hf as [[ytxt r0] [HY Hf]].
  apply in_map_iff in Hf as [[[mtxt dtxt] r4] [Ef Hmd]].
  cbn [fst snd] in Ef. subst f. cbn in Er, Ey, Em, Ed. subst r4.
  unfold Datetime.month_day in Hmd.
  apply in_flat_map in Hmd as [[d1 r1] [K1 Hmd]].
  apply in_flat_map in Hmd as [[mm r2] [K2 Hmd]].
  apply in_flat_map in Hmd as [[d2 r3] [K3 Hmd]].
  apply in_map_iff in Hmd as [[dd r4] [Ef K4]].
  cbn [fst snd] in *. injection Ef as Ea Eb Ec. subst mtxt dtxt r4.
  apply directive_Y_prefix in HY as [Es LY].
  apply directive_m_prefix in K2 as [E1 Lm].
  apply directive_d_prefix in K4 as [E3 Ld].
  unfold Datetime.rx_char, Datetime.rx_class in K1, K3.
  destruct r0 as [|c1 r0]; [destruct K1|].
  destruct (N.eqb_spec (PyStr.chr "-") c1) as [<-|]; [|destruct K1].
  destruct K1 as [Q1|[]]. injection Q1 as _ E0.
  destruct r2 as [|c2 r2]; [destruct K3|].
  destruct (N.eqb_spec (PyStr.chr "-") c2) as [<-|]; [|destruct K3].
  destruct K3 as [Q3|[]]. injection Q3 as _ E2.
  exists ytxt, mm, dd.
  split.
  { rewrite Es, E0, E1, E2, E3, app_nil_r. reflexivity. }
  repeat split; try assumption; try lia.
Qed.

(** ** The validator *)

(** C9.  [normalize_username] strips the whitespace around its argument and
    puts an '@' in front exactly when the stripped text does not start with
    one; "bob", "@bob" and "  bob  " all give "@bob", and the empty string
    gives "@". *)
Theorem normalize_username_spec (value : PyStr.str) :
  (exists l r,
      value = l ++ PyStr.strip value ++ r /\
      forallb PyStr.isspace l = true /\ forallb PyStr.isspace r = true /\
      trimmed (PyStr.strip value)) /\
  (PyStr.startswith (py "@") (PyStr.strip value) = true ->
   normalize_username value = PyStr.strip value) /\
  (PyStr.startswith (py "@") (PyStr.strip value) = false ->
   normalize_username value = py "@" ++ PyStr.strip value) /\
  normalize_username (py "bob") = py "@bob" /\
  normalize_username (py "@bob") = py "@bob" /\
  normalize_username (py "  bob  ") = py "@bob" /\
  normalize_username (py "") = py "@".
Proof.
  split; [apply strip_spec|].
  unfold normalize_username.
  split; [intros ->; reflexivity|].
  split; [intros ->; reflexivity|].
  repeat split; reflexivity.
Qed.

Lemma existsb_str_eqb (x : PyStr.str) (l : list PyStr.str) :
  existsb (PyStr.eqb x) l = true <-> In x l.
Proof.
  rewrite existsb_exists. split.
  - intros [y [Hy E]]. apply str_eqb_eq in E. now subst.
  - intros H. exists x. split; [exact H | now apply str_eqb_eq].
Qed.

Section Validator.

Variable unicode_lower : PyStr.str -> PyStr.str.

Local Abbreviation lower := (PyStr.lower unicode_lower).
Local Abbreviation parse := (parse_task_input unicode_lower).

(** The three priorities are their own lowercase. *)
Lemma lower_priorities (p : PyStr.str) : In p priorities -> lower p = p.
Proof.
  intros [<-|[<-|[<-|[]]]]; reflexivity.
Qed.

(** With five fields, [parse_task_input] is its chain of three checks. *)
Lemma parse_five_fields (raw title assignee due priority tags : PyStr.str) :
  map PyStr.strip (PyStr.split (PyStr.chr "|") raw)
    = [title; assignee; due; priority; tags] ->
  parse raw =
    if is_empty title then Raise EmptyTitle
    else match Datetime.strptime due with
         | None => Raise BadDate
         | Some _ =>
             if existsb (PyStr.eqb (lower priority)) priorities
             then Ok {| TaskInput.title := title;
                        TaskInput.assignee := normalize_username assignee;
                        TaskInput.due_date := due;
                        TaskInput.priority := lower priority;
                        TaskInput.tags := tags |}
             else Raise BadPriority
         end.
Proof.
  intros Hf. unfold parse_task_input. rewrite Hf.
  cbn [length Nat.eqb negb].
  destruct (is_empty title); [reflexivity|].
  destruct (Datetime.strptime due); [|reflexivity].
  now destruct (existsb (PyStr.eqb (lower priority)) priorities).
Qed.

(** The fields of a text are those [parse_task_input] computes, and no
    others. *)
Lemma fields_of_split (sep : PyStr.char) (raw : PyStr.str) (fields : list PyStr.str) :
  fields_of sep raw fields <-> fields = map PyStr.strip (PyStr.split sep raw).
Proof.
  split.
  - intros [parts [Hne [-> [Hbar Htrim]]]].
    rewrite (split_of_join sep parts Hne Hbar).
    clear Hne Hbar. induction Htrim as [|p f ps fs Hp _ IH]; [reflexivity|].
    cbn [map]. now rewrite (trim_of_strip p f Hp), IH.
  - intros ->. exists (PyStr.split sep raw).
    split.
    { pose proof (split_length sep raw) as L.
      destruct (PyStr.split sep raw); [discriminate L | discriminate]. }
    split; [symmetry; apply split_join|].
    split; [apply split_no_sep|].
    induction (PyStr.split sep raw) as [|p ps IH]; cbn [map];
      constructor; [apply strip_spec | exact IH].
Qed.

(** C5.  [parse_task_input] works on the fields of the text, which the text
    alone fixes: the text is its parts joined with '|', no part holding a
    '|', and each field is its part with the whitespace around it cut off.
    Every text has such fields, one more than it has bars, and whichever way
    they are obtained: unless there are exactly five the format error is
    raised; otherwise the title, the due date and the priority are checked
    in that order and the first check that fails decides the error, whatever
    the later fields hold (assignee and tags are never refused); when all
    pass, the result carries all five fields.  The result is either a whole
    [TaskInput] or an error. *)
Theorem parse_task_input_left_to_right (raw : PyStr.str) :
  (exists fields, fields_of (PyStr.chr "|") raw fields) /\
  (forall fields,
      fields_of (PyStr.chr "|") raw fields ->
      length fields = S (count_occ N.eq_dec raw (PyStr.chr "|")) /\
      (length fields <> 5%nat -> parse raw = Raise FormatError) /\
      (forall title assignee due priority tags,
          fields = [title; assignee; due; priority; tags] ->
          (title = [] -> parse raw = Raise EmptyTitle) /\
          (title <> [] -> Datetime.strptime due = None -> parse raw = Raise BadDate) /\
          (title <> [] -> Datetime.strptime due <> None ->
           ~ In (lower priority) priorities -> parse raw = Raise BadPriority) /\
          (title <> [] -> Datetime.strptime due <> None ->
           In (lower priority) priorities ->
           parse raw = Ok {| TaskInput.title := title;
                             TaskInput.assignee := normalize_username assignee;
                             TaskInput.due_date := due;
                             TaskInput.priority := lower priority;
                             TaskInput.tags := tags |}))).
Proof.
  split.
  { exists (map PyStr.strip (PyStr.split (PyStr.chr "|") raw)).
    now apply fields_of_split. }
  intros fields Hfields. apply fields_of_split in Hfields.
  split.
  { rewrite Hfields, length_map. apply split_length. }
  split.
  { intros Hlen. unfold parse_task_input. rewrite <- Hfields.
    apply Nat.eqb_neq in Hlen. now rewrite Hlen. }
  intros title assignee due priority tags Hf.
  rewrite Hfields in Hf.
  rewrite (parse_five_fields raw _ _ _ _ _ Hf).
  repeat split.
  - intros ->. reflexivity.
  - intros Ht Hd. destruct title; [congruence|].
    cbn [is_empty]. now rewrite Hd.
  - intros Ht Hd Hp. destruct title; [congruence|]. cbn [is_empty].
    destruct (Datetime.strptime due); [|congruence].
    destruct (existsb (PyStr.eqb (lower priority)) priorities) eqn:E;
      [|reflexivity].
    apply existsb_str_eqb in E. contradiction.
  - intros Ht Hd Hp. destruct title; [congruence|]. cbn [is_empty].
    destruct (Datetime.strptime due); [|congruence].
    apply existsb_str_eqb in Hp. now rewrite Hp.
Qed.

(** C8.  With five fields, a title and a due date that pass, the fourth
    field decides: if it equals low, medium or high up to case, the input is
    accepted and the priority kept is that word in lowercase; if not, the
    priority error is raised. *)
Theorem priority_field_checked (raw title assignee due priority tags : PyStr.str) :
  map PyStr.strip (PyStr.split (PyStr.chr "|") raw)
    = [title; assignee; due; priority; tags] ->
  title <> [] ->
  Datetime.strptime due <> None ->
  (forall p, In p priorities -> lower priority = lower p ->
     parse raw = Ok {| TaskInput.title := title;
                       TaskInput.assignee := normalize_username assignee;
                       TaskInput.due_date := due;
                       TaskInput.priority := p;
                       TaskInput.tags := tags |}) /\
  ((forall p, In p priorities -> lower priority <> lower p) ->
   parse raw = Raise BadPriority).
Proof.
  intros Hf Ht Hd.
  rewrite (parse_five_fields raw _ _ _ _ _ Hf).
  destruct title; [congruence|]. cbn [is_empty].
  destruct (Datetime.strptime due); [|congruence].
  split.
  - intros p Hp E. rewrite (lower_priorities p Hp) in E.
    assert (Hin : In (lower priority) priorities) by now rewrite E.
    apply existsb_str_eqb in Hin. rewrite Hin. now rewrite E.
  - intros Hno.
    destruct (existsb (PyStr.eqb (lower priority)) priorities) eqn:E;
      [|reflexivity].
    apply existsb_str_eqb in E.
    exfalso. apply (Hno _ E). now rewrite (lower_priorities _ E).
Qed.

End Validator.

(** ** Closing a task *)

Lemma find_task_none (task_id chat : Z) (table : list Row.t) :
  (forall r, In r table -> Row.id r = task_id -> Row.chat_id r <> chat) ->
  find_task task_id chat table = None.
Proof.
  intros H. unfold find_task.
  destruct (find _ table) as [r|] eqn:E; [|reflexivity].
  apply find_some in E as [Hin Hr].
  apply andb_true_iff in Hr as [Hi Hc].
  apply Z.eqb_eq in Hi, Hc. now destruct (H r Hin Hi).
Qed.

Lemma find_task_some (task_id chat : Z) (table : list Row.t) (r : Row.t) :
  In r table -> Row.id r = task_id -> Row.chat_id r = chat ->
  exists r', find_task task_id chat table = Some r'.
Proof.
  intros Hin Hi Hc. unfold find_task.
  destruct (find _ table) as [r'|] eqn:E; [now exists r'|].
  apply (find_none _ _ E) in Hin.
  rewrite Hi, Hc, !Z.eqb_refl in Hin. discriminate.
Qed.

Lemma complete_missing (chat task_id : Z) (now : PyStr.str) (db : DB) :
  find_task task_id chat (rows db) = None ->
  complete chat task_id now db = (Ok false, db, [SqlSelect]).
Proof.
  intros H. unfold complete, bind, sql_find_task. now rewrite H.
Qed.

Lemma complete_found (chat task_id : Z) (now : PyStr.str) (db : DB) (r : Row.t) :
  find_task task_id chat (rows db) = Some r ->
  complete chat task_id now db
    = (Ok true, {| rows := mark_done task_id now (rows db); seq := seq db |},
       [SqlSelect; SqlUpdate; SqlCommit]).
Proof.
  intros H. unfold complete, bind, sql_find_task. now rewrite H.
Qed.

Lemma mark_done_in (task_id : Z) (now : PyStr.str) (table : list Row.t) (r' : Row.t) :
  In r' (mark_done task_id now table) ->
  exists r, In r table /\
            r' = if (Row.id r =? task_id)%Z then set_done now r else r.
Proof.
  unfold mark_done. rewrite in_map_iff. intros [r [E Hin]]. now exists r.
Qed.

(** Binding an id that fits 64 bits leaves [complete] to run on it. *)
Lemma complete_arg_in_range (chat task_id : Z) (now : PyStr.str) (db : DB) :
  (- 2 ^ 63 <= task_id < 2 ^ 63)%Z ->
  complete_arg chat task_id now db = complete chat task_id now db.
Proof.
  intros Hr. unfold complete_arg, sqlite_int64.
  assert (Hb : ((- 2 ^ 63 <=? task_id) && (task_id <? 2 ^ 63))%Z = true).
  { apply andb_true_iff. split; [apply Z.leb_le | apply Z.ltb_lt]; lia. }
  rewrite Hb. unfold bind at 1. unfold ret at 1.
  now destruct (complete chat task_id now db) as [[[closed|e] db'] l].
Qed.

(** Binding any other id raises before a statement runs. *)
Lemma complete_arg_out_of_range (chat task_id : Z) (now : PyStr.str) (db : DB) :
  ((- 2 ^ 63 <=? task_id) && (task_id <? 2 ^ 63))%Z = false ->
  complete_arg chat task_id now db = (Raise OverflowError, db, []).
Proof.
  intros Hb. unfold complete_arg, sqlite_int64. now rewrite Hb.
Qed.

(** Past its argument check, [done] is [complete_arg] and one reply, which
    needs a message to answer to. *)
Lemma done_with_id (update : Update) (arg : PyStr.str) (now : PyStr.str)
    (db : DB) (task_id : Z) :
  PyStr.isdigit arg = true ->
  PyStr.int arg = Some task_id ->
  done update [arg] now db =
    match complete_arg (effective_chat update) task_id now db with
    | (Ok closed, db', l) =>
        if has_message update
        then (Ok tt, db', l ++ [Reply (if closed then Closed task_id else NotFound)])
        else (Raise AttributeError, db', l)
    | (Raise e, db', l) => (Raise e, db', l)
    end.
Proof.
  intros Hd Hi. unfold done. cbn [length Nat.eqb negb hd orb].
  rewrite Hd, Hi. cbn [negb]. unfold bind at 1.
  destruct (complete_arg (effective_chat update) task_id now db)
    as [[[closed|e] db'] l]; [|reflexivity].
  destruct closed; unfold reply; destruct (has_message update);
    now rewrite ?app_nil_r.
Qed.

(** C4.  When no task has the given id in the given chat, be it that the
    id is unknown or that it belongs to a task of another chat, no task is
    changed: the database after [complete_arg] is the one before it, so the
    task keeps its status and its completed_at in its own chat.  What is
    reported depends on the id.  An id that fits a signed 64-bit integer is
    looked up and not found, and /done sent as a new message answers "not
    found" (sent in an edited message it has nothing to answer to and ends
    in [AttributeError] after the lookup).  Any other id stops the driver
    with [OverflowError] before the SELECT runs, and /done sends no
    reply. *)
Theorem complete_out_of_scope (chat task_id : Z) (now : PyStr.str) (db : DB) :
  (forall r, In r (rows db) -> Row.id r = task_id -> Row.chat_id r <> chat) ->
  db_after (complete_arg chat task_id now) db = db /\
  complete_arg chat task_id now db
    = (if ((- 2 ^ 63 <=? task_id) && (task_id <? 2 ^ 63))%Z
       then (Ok false, db, [SqlSelect])
       else (Raise OverflowError, db, [])) /\
  forall update arg,
    effective_chat update = chat ->
    PyStr.isdigit arg = true ->
    PyStr.int arg = Some task_id ->
    done update [arg] now db
      = (if ((- 2 ^ 63 <=? task_id) && (task_id <? 2 ^ 63))%Z
         then if has_message update
              then (Ok tt, db, [SqlSelect; Reply NotFound])
              else (Raise AttributeError, db, [SqlSelect])
         else (Raise OverflowError, db, [])).
Proof.
  intros H. apply find_task_none in H.
  assert (E : complete_arg chat task_id now db
              = (if ((- 2 ^ 63 <=? task_id) && (task_id <? 2 ^ 63))%Z
                 then (Ok false, db, [SqlSelect])
                 else (Raise OverflowError, db, []))).
  { destruct ((- 2 ^ 63 <=? task_id) && (task_id <? 2 ^ 63))%Z eqn:Hb.
    - apply andb_true_iff in Hb as [Hl Hu].
      apply Z.leb_le in Hl. apply Z.ltb_lt in Hu.
      rewrite complete_arg_in_range by lia.
      now apply complete_missing.
    - now apply complete_arg_out_of_range. }
  split; [|split; [exact E|]].
  - unfold db_after. rewrite E.
    now destruct ((- 2 ^ 63 <=? task_id) && (task_id <? 2 ^ 63))%Z.
  - intros update arg <- Hd Hi.
    rewrite (done_with_id update arg now db task_id Hd Hi), E.
    now destruct ((- 2 ^ 63 <=? task_id) && (task_id <? 2 ^ 63))%Z.
Qed.

(** C7.  An open task of the chat is listed by [list_open]; [complete] on
    its id succeeds, turns it into the same row with status done and
    completed_at set to the current time, leaves no row with that id open,
    and [list_open] for the chat no longer has a row with that id. *)
Theorem complete_closes_open_task (chat task_id : Z) (now : PyStr.str)
    (db : DB) (r : Row.t) :
  In r (rows db) -> Row.id r = task_id -> Row.chat_id r = chat ->
  Row.status r = StatusOpen ->
  let after := db_after (complete chat task_id now) db in
  In r (list_open chat (rows db)) /\
  outcome_of (complete chat task_id now) db = Ok true /\
  In (set_done now r) (rows after) /\
  (forall r', In r' (rows after) -> Row.id r' = task_id ->
              Row.status r' = StatusDone /\ Row.completed_at r' = Some now /\
              Row.completed_at r' <> None) /\
  (forall r', In r' (list_open chat (rows after)) -> Row.id r' <> task_id).
Proof.
  intros Hin Hi Hc Hs after.
  destruct (find_task_some _ _ _ _ Hin Hi Hc) as [r0 Hf].
  assert (Hafter : rows after = mark_done task_id now (rows db)).
  { unfold after, db_after. now rewrite (complete_found _ _ now _ _ Hf). }
  assert (Hdone : forall r', In r' (rows after) -> Row.id r' = task_id ->
            Row.status r' = StatusDone /\ Row.completed_at r' = Some now /\
            Row.completed_at r' <> None).
  { intros r' Hr' Hid. rewrite Hafter in Hr'.
    apply mark_done_in in Hr' as [x [_ ->]].
    destruct (Row.id x =? task_id)%Z eqn:E.
    - repeat split. discriminate.
    - apply Z.eqb_neq in E. contradiction. }
  split; [apply list_open_in; auto|].
  split; [unfold outcome_of; now rewrite (complete_found _ _ now _ _ Hf)|].
  split.
  { rewrite Hafter. unfold mark_done. apply in_map_iff. exists r.
    split; [|exact Hin]. rewrite Hi, Z.eqb_refl. reflexivity. }
  split; [exact Hdone|].
  intros r' Hr' Hid. apply list_open_in in Hr' as [Hr' [_ Hopen]].
  destruct (Hdone r' Hr' Hid) as [Hd _]. congruence.
Qed.

(** ** The life of a row *)

Section Lifecycle.

Variable unicode_lower : PyStr.str -> PyStr.str.

(** What one command can do to the table: nothing, append one fresh open
    row (/newtask), or run the UPDATE of /done on a task of the chat. *)
Lemma step_rows (db : DB) (e : event) :
  rows (step unicode_lower db e) = rows db \/
  (ev_command e = CmdNewtask /\
   exists r, rows (step unicode_lower db e) = rows db ++ [r] /\
             Row.status r = StatusOpen /\ Row.completed_at r = None /\
             Row.id r = (fold_right Z.max (seq db) (map Row.id (rows db)) + 1)%Z) \/
  (ev_command e = CmdDone /\
   exists task_id, rows (step unicode_lower db e) = mark_done task_id (ev_now e) (rows db)).
Proof.
  destruct e as [c u a n]. unfold step, db_after, handle.
  destruct c; cbn [ev_command ev_update ev_args ev_now].
  - left. unfold start, reply. now destruct (has_message u).
  - left. unfold help_command, start, reply. now destruct (has_message u).
  - unfold newtask.
    destruct (is_empty _);
      [left; unfold reply; now destruct (has_message u)|].
    destruct (parse_task_input _ _) as [task|exc];
      [|left; unfold reply; now destruct (has_message u)].
    destruct (effective_user u) as [created_by|]; [|left; reflexivity].
    unfold bind, sql_insert_task, sql_commit, reply.
    destruct (2 ^ 63 <=? _)%Z; [left; reflexivity|].
    right; left. split; [reflexivity|].
    eexists. split; [now destruct (has_message u)|]. repeat split.
  - left. unfold tasks, bind, sql_list_open, reply. cbn.
    now destruct (list_open _ _), (has_message u).
  - left. unfold mytasks, reply.
    destruct (current_username u) as [[|c name]|];
      try now destruct (has_message u).
    unfold bind, sql_list_open_for_assignee. cbn.
    now destruct (list_open_for_assignee _ _ _), (has_message u).
  - unfold done.
    destruct (negb _ || negb _);
      [left; unfold reply; now destruct (has_message u)|].
    destruct (PyStr.int _) as [k|]; [|left; reflexivity].
    unfold complete_arg, sqlite_int64.
    destruct ((- 2 ^ 63 <=? k)%Z && (k <? 2 ^ 63)%Z); [|left; reflexivity].
    unfold bind at 1. unfold bind at 1. unfold ret at 1.
    unfold complete, bind, sql_find_task, reply. cbn.
    destruct (find_task k (effective_chat u) (rows db)).
    + right; right. split; [reflexivity|]. exists k.
      now destruct (has_message u).
    + left. now destruct (has_message u).
Qed.

Lemma run_snoc (events : list event) (e : event) (db : DB) :
  run unicode_lower (events ++ [e]) db = step unicode_lower (run unicode_lower events db) e.
Proof. unfold run. now rewrite fold_left_app. Qed.

(** In every state the bot reaches from an empty table, a row is open
    exactly when its completed_at is NULL. *)
Lemma reachable_open_iff_null (events : list event) :
  Forall (fun r => Row.status r = StatusOpen <-> Row.completed_at r = None)
    (rows (run unicode_lower events (init_db None))).
Proof.
  induction events as [|e events IH] using rev_ind; [constructor|].
  rewrite run_snoc.
  destruct (step_rows (run unicode_lower events (init_db None)) e)
    as [E|[[_ [r [E [Hs [Hc _]]]]]|[_ [k E]]]]; rewrite E.
  - exact IH.
  - apply Forall_app. split; [exact IH|].
    constructor; [|constructor]. rewrite Hs, Hc. tauto.
  - unfold mark_done. apply Forall_map.
    eapply Forall_impl; [|exact IH]. intros r Hr. cbv beta.
    destruct (Row.id r =? k)%Z; [|exact Hr].
    cbn. split; discriminate.
Qed.

Lemma max_id_bound (table : list Row.t) (start : Z) (r : Row.t) :
  In r table -> (Row.id r <= fold_right Z.max start (map Row.id table))%Z.
Proof.
  induction table as [|x table IH]; cbn; [tauto|].
  intros [->|H]; [lia|]. specialize (IH H). lia.
Qed.

Lemma mark_done_ids (task_id : Z) (now : PyStr.str) (table : list Row.t) :
  map Row.id (mark_done task_id now table) = map Row.id table.
Proof.
  unfold mark_done. rewrite map_map. apply map_ext.
  intros r. now destruct (Row.id r =? task_id)%Z.
Qed.

(** In every state the bot reaches from an empty table, no two rows share an
    id. *)
Lemma reachable_ids_unique (events : list event) :
  NoDup (map Row.id (rows (run unicode_lower events (init_db None)))).
Proof.
  induction events as [|e events IH] using rev_ind; [constructor|].
  rewrite run_snoc.
  destruct (step_rows (run unicode_lower events (init_db None)) e)
    as [E|[[_ [r [E [_ [_ Hid]]]]]|[_ [k E]]]]; rewrite E.
  - exact IH.
  - rewrite map_app. cbn [map].
    apply NoDup_rev in IH. rewrite <- (rev_involutive (_ ++ _)).
    apply NoDup_rev. rewrite rev_app_distr. cbn [rev app].
    constructor; [|exact IH].
    rewrite <- in_rev, in_map_iff. intros [x [Hx Hin]].
    pose proof (max_id_bound _ (seq (run unicode_lower events (init_db None))) _ Hin).
    lia.
  - now rewrite mark_done_ids.
Qed.

(** A command leaves each row in its place, either as it was or, for /done,
    as [set_done] makes it. *)
Lemma step_row (db : DB) (e : event) (i : nat) (r : Row.t) :
  nth_error (rows db) i = Some r ->
  nth_error (rows (step unicode_lower db e)) i = Some r \/
  (ev_command e = CmdDone /\
   nth_error (rows (step unicode_lower db e)) i = Some (set_done (ev_now e) r)).
Proof.
  intros Hi.
  destruct (step_rows db e) as [E|[[_ [x [E _]]]|[Hc [k E]]]]; rewrite E.
  - now left.
  - left. rewrite nth_error_app1; [exact Hi|].
    apply nth_error_Some. congruence.
  - unfold mark_done. rewrite nth_error_map, Hi. cbn.
    destruct (Row.id r =? k)%Z; [right; now split | now left].
Qed.

(** C3, as the code has it.  In every state reached from an empty table a
    task is open exactly when its completed_at is NULL.  No command takes a
    row out of the table or changes its id; a row that is done stays done;
    and completed_at changes only when /done runs its UPDATE on the row,
    which makes the row done and stores the current time.  That UPDATE does
    not look at the status: [complete] on a task of the chat stamps
    completed_at with the current time whether the task was open or already
    done. *)
Theorem status_one_way_completed_at_restamped :
  (forall events r,
      In r (rows (run unicode_lower events (init_db None))) ->
      (Row.status r = StatusOpen <-> Row.completed_at r = None)) /\
  (forall db e i r,
      nth_error (rows db) i = Some r ->
      exists r',
        nth_error (rows (step unicode_lower db e)) i = Some r' /\
        Row.id r' = Row.id r /\
        (Row.status r = StatusDone -> Row.status r' = StatusDone) /\
        (Row.status r' <> Row.status r ->
         Row.status r = StatusOpen /\ Row.status r' = StatusDone) /\
        (Row.completed_at r' <> Row.completed_at r ->
         ev_command e = CmdDone /\ Row.status r' = StatusDone /\
         Row.completed_at r' = Some (ev_now e))) /\
  (forall db chat task_id now r,
      In r (rows db) -> Row.id r = task_id -> Row.chat_id r = chat ->
      forall r',
        In r' (rows (db_after (complete chat task_id now) db)) ->
        Row.id r' = task_id ->
        Row.status r' = StatusDone /\ Row.completed_at r' = Some now).
Proof.
  split; [|split].
  - intros events r Hr.
    pose proof (reachable_open_iff_null events) as H.
    rewrite Forall_forall in H. now apply H.
  - intros db e i r Hi.
    destruct (step_row db e i r Hi) as [E|[Hc E]].
    + exists r. split; [exact E|]. split; [reflexivity|].
      split; [auto|]. split; congruence.
    + exists (set_done (ev_now e) r). split; [exact E|].
      split; [reflexivity|]. cbn.
      split; [auto|]. split.
      * intros Hne. split; [|reflexivity].
        destruct (Row.status r); congruence.
      * intros _. auto.
  - intros db chat task_id now r Hin Hi Hc r' Hr' Hid.
    destruct (find_task_some _ _ _ _ Hin Hi Hc) as [r0 Hf].
    unfold db_after in Hr'.
    rewrite (complete_found _ _ now _ _ Hf) in Hr'. cbn in Hr'.
    apply mark_done_in in Hr' as [x [_ ->]].
    destruct (Row.id x =? task_id)%Z eqn:E.
    + split; reflexivity.
    + apply Z.eqb_neq in E. contradiction.
Qed.

End Lifecycle.

(** ** The argument of /done *)

(** Without exactly one argument made of digits, [done] goes no further
    than its usage line and touches nothing. *)
Lemma done_usage (update : Update) (args : list PyStr.str) (now : PyStr.str) (db : DB) :
  length args <> 1%nat \/ PyStr.isdigit (hd [] args) = false ->
  done update args now db = reply update DoneUsage db.
Proof.
  intros H. unfold done.
  assert (G : negb (length args =? 1)%nat || negb (PyStr.isdigit (hd [] args)) = true).
  { apply orb_true_iff. destruct H as [H|H].
    - left. apply negb_true_iff. now apply Nat.eqb_neq.
    - right. now rewrite H. }
  now rewrite G.
Qed.

(** ** Digits and [int] *)

Lemma in_ranges_expand (rs : list (N * N)) (c : PyStr.char) :
  PyStr.in_ranges rs c = true -> In c (expand_ranges rs).
Proof.
  unfold PyStr.in_ranges, expand_ranges. intros H.
  apply existsb_exists in H as [[lo hi] [Hin Hc]]. cbn [fst snd] in Hc.
  apply andb_true_iff in Hc as [Hlo Hhi]. apply N.leb_le in Hlo, Hhi.
  apply in_flat_map. exists (lo, hi). split; [exact Hin|]. cbn [fst snd].
  apply in_map_iff. exists (N.to_nat (c - lo)). split; [lia|].
  apply in_seq. lia.
Qed.

Lemma whitespace_digit_table :
  forallb (fun c => negb (PyStr.isdigit_char c)) (expand_ranges PyStr.whitespace_ranges) = true.
Proof. vm_compute. reflexivity. Qed.

(** A digit is not whitespace, a sign or an underscore. *)
Lemma digit_char_plain (c : PyStr.char) :
  PyStr.isdigit_char c = true ->
  PyStr.isspace c = false /\ (c =? PyStr.chr "-")%N = false /\
  (c =? PyStr.chr "+")%N = false /\ (c =? PyStr.chr "_")%N = false.
Proof.
  intros H. split.
  - destruct (PyStr.isspace c) eqn:E; [|reflexivity].
    apply in_ranges_expand in E.
    pose proof whitespace_digit_table as T. rewrite forallb_forall in T.
    apply T in E. rewrite H in E. discriminate.
  - repeat split; apply N.eqb_neq; intros ->; vm_compute in H; discriminate.
Qed.

Lemma int_digits_of_digits (s : PyStr.str) (acc : Z) (b : bool) (n : Z) :
  forallb PyStr.isdigit_char s = true ->
  PyStr.int_digits acc b s = Some n -> (0 <= acc)%Z ->
  (0 <= n)%Z /\ forallb PyStr.isdecimal_char s = true.
Proof.
  revert acc b. induction s as [|c s IH]; intros acc b Hs Hi Ha.
  - cbn in Hi. destruct b; [|discriminate]. injection Hi as <-. now split.
  - cbn in Hs. apply andb_true_iff in Hs as [Hc Hs].
    destruct (digit_char_plain c Hc) as [_ [_ [_ Hu]]].
    cbn [PyStr.int_digits] in Hi. rewrite Hu in Hi.
    cbn [forallb]. unfold PyStr.isdecimal_char at 1.
    destruct (PyStr.decimal_value c) as [d|]; [|discriminate].
    apply (IH _ _ Hs) in Hi; [|lia]. exact Hi.
Qed.

(** When [isdigit] holds and [int] succeeds, the text is made of decimal
    digits and its value is not negative. *)
Lemma int_of_isdigit (s : PyStr.str) (n : Z) :
  PyStr.isdigit s = true -> PyStr.int s = Some n ->
  PyStr.isdecimal s = true /\ (0 <= n)%Z.
Proof.
  intros Hd Hi. unfold PyStr.isdigit in Hd. unfold PyStr.isdecimal.
  destruct s as [|c s]; [discriminate|].
  assert (Hp : Forall (fun c => PyStr.isspace c = false) (c :: s)).
  { apply Forall_forall. intros x Hx. rewrite forallb_forall in Hd.
    now destruct (digit_char_plain x (Hd x Hx)). }
  unfold PyStr.int in Hi. rewrite (strip_int_plain _ Hp) in Hi.
  assert (Hc : PyStr.isdigit_char c = true).
  { cbn in Hd. now apply andb_true_iff in Hd as [Hc _]. }
  destruct (digit_char_plain c Hc) as [_ [Hm [Hpl _]]].
  rewrite Hm, Hpl in Hi. apply int_unsigned_some in Hi.
  destruct (int_digits_of_digits _ _ _ _ Hd Hi); [lia|]. now split.
Qed.

(** X12.  A statement runs on the database only when /done has exactly
    one argument, made of decimal digits, that is the literal of an integer
    from 0 to 2^63 - 1. *)
Lemma done_consults_store_only_for_id (update : Update) (args : list PyStr.str)
    (now : PyStr.str) (db : DB) :
  existsb is_sql (effects_of (done update args now) db) = true ->
  exists arg n,
    args = [arg] /\ PyStr.isdecimal arg = true /\ PyStr.int arg = Some n /\
    (0 <= n < 2 ^ 63)%Z.
Proof.
  unfold effects_of, done.
  destruct (negb (length args =? 1)%nat || negb (PyStr.isdigit (hd [] args))) eqn:G;
    [unfold reply; destruct (has_message update); cbn; discriminate|].
  apply orb_false_iff in G as [Gl Gd].
  apply negb_false_iff in Gl, Gd. apply Nat.eqb_eq in Gl.
  destruct args as [|arg [|x args]]; try discriminate. cbn [hd] in *.
  destruct (PyStr.int arg) as [n|] eqn:Ei; [|cbn; discriminate].
  destruct (int_of_isdigit arg n Gd Ei) as [Hdec Hn].
  unfold complete_arg, sqlite_int64.
  destruct ((- 2 ^ 63 <=? n)%Z && (n <? 2 ^ 63)%Z) eqn:R; [|cbn; discriminate].
  intros _. exists arg, n. repeat split; try assumption.
  apply andb_true_iff in R as [_ R]. now apply Z.ltb_lt.
Qed.

(** C10.  [isdigit] lets through characters that [int] refuses.  For the
    single argument "²" (SUPERSCRIPT TWO), which is a digit but not a decimal
    digit, [done] does not answer with the usage line: [int] raises
    [ValueError], which nothing catches, and the handler ends with neither a
    reply nor a statement run on the database. *)
Theorem done_superscript_two (update : Update) (now : PyStr.str) (db : DB) :
  PyStr.isdigit superscript_two = true /\
  PyStr.isdecimal superscript_two = false /\
  done update [superscript_two] now db = (Raise ValueError, db, []).
Proof. repeat split. Qed.

(** ** Closed instances *)

(** C2.  [strptime] takes a month and a day of one digit: the input
    "Ship report | alice | 2024-1-5 | high | urgent,q1" raises no date error
    and is parsed with due_date "2024-1-5". *)
Theorem one_digit_month_and_day_accepted :
  parse_task_input no_case_tables
    (py "Ship report | alice | 2024-1-5 | high | urgent,q1")
  = Ok {| TaskInput.title := py "Ship report";
          TaskInput.assignee := py "@alice";
          TaskInput.due_date := py "2024-1-5";
          TaskInput.priority := py "high";
          TaskInput.tags := py "urgent,q1" |}.
Proof. vm_compute. reflexivity. Qed.

(** Against C3 as stated: a second /done on a task that is already done
    replaces its completed_at. *)
Lemma completed_at_changes_on_second_done :
  map (fun r => (Row.id r, Row.status r, Row.completed_at r)) (rows closed_once)
    = [(1%Z, StatusDone, Some (py "2024-01-01 10:00:00"))] /\
  map (fun r => (Row.id r, Row.status r, Row.completed_at r)) (rows closed_twice)
    = [(1%Z, StatusDone, Some (py "2024-01-02 10:00:00"))] /\
  map Row.completed_at (rows closed_twice) <> map Row.completed_at (rows closed_once).
Proof.
  split; [vm_compute; reflexivity|].
  split; [vm_compute; reflexivity|].
  vm_compute. discriminate.
Qed.

(** Against C4 as stated: no task has the id 2^63, in chat 7 or elsewhere,
    yet /done 9223372036854775808 is not answered with "not found".  The
    argument passes [isdigit] and [int]; binding it to the SELECT raises
    [OverflowError], and the handler ends without a reply. *)
Lemma done_id_beyond_int64 :
  (forall r, In r (rows three_priorities) ->
             Row.id r = (2 ^ 63)%Z -> Row.chat_id r <> 7%Z) /\
  PyStr.isdigit (py "9223372036854775808") = true /\
  PyStr.int (py "9223372036854775808") = Some (2 ^ 63)%Z /\
  outcome_of (complete_arg 7 (2 ^ 63) (py "t4")) three_priorities
    = Raise OverflowError /\
  done in_chat_7 [py "9223372036854775808"] (py "t4") three_priorities
    = (Raise OverflowError, three_priorities, []) /\
  replies (effects_of (done in_chat_7 [py "9223372036854775808"] (py "t4"))
             three_priorities) = [].
Proof.
  split.
  { intros r Hin Hid. vm_compute in Hin.
    destruct Hin as [<-|[<-|[<-|[]]]]; vm_compute in Hid; discriminate. }
  repeat split; vm_compute; reflexivity.
Qed.

(** [complete_out_of_scope] at work: task 1 lives in chat 7 and is asked
    for from chat 8. *)
Lemma complete_out_of_scope_witness :
  (forall r, In r (rows three_priorities) -> Row.id r = 1%Z -> Row.chat_id r <> 8%Z) /\
  complete_arg 8 1 (py "t4") three_priorities
    = (Ok false, three_priorities, [SqlSelect]) /\
  done {| effective_chat := 8; effective_user := Some sender; has_message := true |}
       [py "1"] (py "t4") three_priorities
    = (Ok tt, three_priorities, [SqlSelect; Reply NotFound]).
Proof.
  assert (H : forall r, In r (rows three_priorities) ->
                        Row.id r = 1%Z -> Row.chat_id r <> 8%Z).
  { intros r Hin _. vm_compute in Hin.
    destruct Hin as [<-|[<-|[<-|[]]]]; simpl; lia. }
  split; [exact H|].
  pose proof (complete_out_of_scope 8 1 (py "t4") three_priorities H) as W.
  split; [exact (proj1 (proj2 W))|].
  exact (proj2 (proj2 W)
           {| effective_chat := 8; effective_user := Some sender; has_message := true |}
           (py "1") eq_refl eq_refl eq_refl).
Defined.

(** [complete_closes_open_task] at work on the medium task of chat 7. *)
Lemma complete_closes_open_task_witness :
  In medium_task (rows three_priorities) /\
  outcome_of (complete 7 2 (py "t4")) three_priorities = Ok true /\
  forall r', In r' (list_open 7 (rows (db_after (complete 7 2 (py "t4")) three_priorities))) ->
             Row.id r' <> 2%Z.
Proof.
  assert (H : In medium_task (rows three_priorities)).
  { vm_compute. right; left. reflexivity. }
  split; [exact H|].
  pose proof (complete_closes_open_task 7 2 (py "t4") three_priorities medium_task
                H eq_refl eq_refl eq_refl) as W.
  split; [exact (proj1 (proj2 W)) | exact (proj2 (proj2 (proj2 (proj2 W))))].
Defined.

(** [priority_field_checked] at work on a priority in capitals. *)
Lemma priority_field_checked_witness :
  parse_task_input no_case_tables
    (py "Ship report | alice | 2024-03-01 | HIGH | urgent,q1")
  = Ok {| TaskInput.title := py "Ship report";
          TaskInput.assignee := normalize_username (py "alice");
          TaskInput.due_date := py "2024-03-01";
          TaskInput.priority := py "high";
          TaskInput.tags := py "urgent,q1" |}.
Proof.
  refine (proj1 (priority_field_checked no_case_tables
            (py "Ship report | alice | 2024-03-01 | HIGH | urgent,q1")
            (py "Ship report") (py "alice") (py "2024-03-01") (py "HIGH")
            (py "urgent,q1") _ _ _) (py "high") _ _).
  - vm_compute. reflexivity.
  - discriminate.
  - vm_compute. discriminate.
  - simpl. right; right; left. reflexivity.
  - vm_compute. reflexivity.
Defined.

(** * Further properties *)

(** ** Handles *)

Lemma at_sign_not_space : PyStr.isspace (PyStr.chr "@") = false.
Proof. reflexivity. Qed.

(** What [normalize_username] returns starts with '@' and has no whitespace
    at either end. *)
Lemma normalize_username_handle (value : PyStr.str) :
  PyStr.startswith (py "@") (normalize_username value) = true /\
  trimmed (normalize_username value).
Proof.
  destruct (strip_spec value) as [_ [_ [_ [_ [_ Ht]]]]].
  unfold normalize_username.
  destruct (PyStr.startswith (py "@") (PyStr.strip value)) eqn:E.
  - now split.
  - split; [reflexivity|].
    destruct Ht as [_ Hlast]. split.
    + intros c r H. injection H as <- _. reflexivity.
    + intros c r H. destruct r as [|x r].
      * injection H as <- _. reflexivity.
      * injection H as _ H. exact (Hlast c r H).
Qed.

(** X3.  [normalize_username] always returns a handle: it starts with '@',
    has no whitespace at either end, and normalizing it again changes
    nothing.  So the assignee stored by /newtask and the requester's handle
    that /mytasks compares it with are in the same form. *)
Theorem normalize_username_idempotent (value : PyStr.str) :
  PyStr.startswith (py "@") (normalize_username value) = true /\
  trimmed (normalize_username value) /\
  normalize_username (normalize_username value) = normalize_username value.
Proof.
  destruct (normalize_username_handle value) as [Gs Gt].
  split; [exact Gs|]. split; [exact Gt|].
  unfold normalize_username at 1.
  rewrite (strip_trimmed _ Gt). now rewrite Gs.
Qed.

(** ** Ids as text *)

Lemma digits_of_pos_app (fuel : nat) (n : N) (acc : PyStr.str) :
  PyStr.digits_of_pos fuel n acc = PyStr.digits_of_pos fuel n [] ++ acc.
Proof.
  revert n acc. induction fuel as [|fuel IH]; intros n acc; [reflexivity|].
  cbn [PyStr.digits_of_pos]. destruct (n <? 10)%N; [reflexivity|].
  rewrite (IH _ (_ :: acc)), (IH _ [_]), <- app_assoc. reflexivity.
Qed.

Lemma digits_of_pos_S (fuel : nat) (n : N) (acc : PyStr.str) :
  PyStr.digits_of_pos (S fuel) n acc =
    if (n <? 10)%N then (48 + n mod 10)%N :: acc
    else PyStr.digits_of_pos fuel (n / 10)%N ((48 + n mod 10)%N :: acc).
Proof. reflexivity. Qed.

Lemma last_digit_range (n : N) : (48 <= 48 + n mod 10 <= 57)%N.
Proof.
  assert (H : (n mod 10 < 10)%N) by (apply N.mod_lt; discriminate).
  revert H. generalize (n mod 10)%N. intros m H. lia.
Qed.

(** The digits that [str] writes for a number are ASCII digits, at least
    one, and read back in base ten they give the number. *)
Lemma digits_of_pos_value (fuel : nat) (n : N) :
  (n < 2 ^ N.of_nat (S fuel))%N ->
  let s := PyStr.digits_of_pos (S fuel) n [] in
  s <> [] /\ Forall (fun c => (48 <= c <= 57)%N) s /\
  fold_left (fun a c => (10 * a + Z.of_N (c - 48))%Z) s 0%Z = Z.of_N n.
Proof.
  revert n. induction fuel as [|fuel IH]; intros n Hn.
  - assert (H : (n < 10)%N).
    { change (N.of_nat 1) with 1%N in Hn. rewrite N.pow_1_r in Hn. lia. }
    cbn zeta. cbn [PyStr.digits_of_pos].
    apply N.ltb_lt in H as E. rewrite E.
    split; [discriminate|]. split.
    + constructor; [|constructor]. apply last_digit_range.
    + cbn [fold_left]. rewrite N.mod_small by lia. lia.
  - cbn zeta. rewrite digits_of_pos_S.
    destruct (n <? 10)%N eqn:E.
    + apply N.ltb_lt in E. split; [discriminate|]. split.
      * constructor; [|constructor]. apply last_digit_range.
      * cbn [fold_left]. rewrite N.mod_small by lia. lia.
    + apply N.ltb_ge in E.
      assert (Hq : (n / 10 < 2 ^ N.of_nat (S fuel))%N).
      { replace (N.of_nat (S (S fuel))) with (N.succ (N.of_nat (S fuel))) in Hn by lia.
        rewrite N.pow_succ_r' in Hn.
        apply N.Div0.div_lt_upper_bound. lia. }
      destruct (IH _ Hq) as [Hne [Hall Hval]].
      rewrite (digits_of_pos_app (S fuel)).
      split; [|split].
      * intros H. apply app_eq_nil in H as [_ H]. discriminate.
      * apply Forall_app. split; [exact Hall|].
        constructor; [|constructor]. apply last_digit_range.
      * rewrite fold_left_app. cbv zeta in Hval. cbn [fold_left].
        set (v := fold_left _ _ 0%Z).
        assert (Hv : v = Z.of_N (n / 10)) by exact Hval. rewrite Hv. clear v Hv.
        assert (D : n = (10 * (n / 10) + n mod 10)%N) by (apply N.div_mod; discriminate).
        revert D. generalize (n / 10)%N (n mod 10)%N. intros q m D. lia.
Qed.

Lemma int_digits_ascii (s : PyStr.str) (acc : Z) (b : bool) :
  Forall (fun c => (48 <= c <= 57)%N) s -> (s <> [] \/ b = true) ->
  PyStr.int_digits acc b s
    = Some (fold_left (fun a c => (10 * a + Z.of_N (c - 48))%Z) s acc).
Proof.
  revert acc b. induction s as [|c s IH]; intros acc b Hs Hb.
  - destruct Hb as [Hb| ->]; [congruence | reflexivity].
  - apply Forall_cons_iff in Hs as [Hc Hs].
    cbn [PyStr.int_digits fold_left].
    rewrite (ascii_digit_not_char c) by first [assumption | right; reflexivity].
    rewrite (ascii_digit_value c Hc). apply IH; [exact Hs | now right].
Qed.

Lemma digits_of_pos_length (fuel : nat) (n : N) (acc : PyStr.str) :
  (length (PyStr.digits_of_pos fuel n acc) <= fuel + length acc)%nat.
Proof.
  revert n acc. induction fuel as [|fuel IH]; intros n acc; [cbn; lia|].
  rewrite digits_of_pos_S. destruct (n <? 10)%N; [cbn [length]; lia|].
  specialize (IH (n / 10)%N ((48 + n mod 10)%N :: acc)).
  cbn [length] in IH. lia.
Qed.

(** Writing a number that fits 64 bits with [str] and reading it with [int]
    gives the number back, and the text passes [isdigit]. *)
Lemma int_of_Z (n : Z) :
  (0 <= n < 2 ^ 63)%Z ->
  PyStr.isdigit (PyStr.of_Z n) = true /\ PyStr.int (PyStr.of_Z n) = Some n.
Proof.
  intros [Hn Hlt].
  assert (Hlog : (N.to_nat (N.log2 (Z.to_N n)) < 63)%nat).
  { destruct (N.eq_dec (Z.to_N n) 0) as [->|Hz]; [cbn; lia|].
    assert (L : (N.log2 (Z.to_N n) < 63)%N).
    { apply N.log2_lt_pow2; [lia|].
      change (2 ^ 63)%N with (Z.to_N (2 ^ 63)). lia. }
    lia. }
  assert (E : PyStr.of_Z n = PyStr.of_N (Z.to_N n)) by (destruct n; [reflexivity..|lia]).
  rewrite E. unfold PyStr.of_N.
  assert (Hb : (Z.to_N n < 2 ^ N.of_nat (S (N.to_nat (N.log2 (Z.to_N n)))))%N).
  { replace (N.of_nat (S (N.to_nat (N.log2 (Z.to_N n)))))
      with (N.succ (N.log2 (Z.to_N n))) by lia.
    destruct (N.eq_dec (Z.to_N n) 0) as [->|Hz]; [reflexivity|].
    apply N.log2_spec. lia. }
  destruct (digits_of_pos_value _ _ Hb) as [Hne [Hall Hval]].
  set (s := PyStr.digits_of_pos _ _ []) in *.
  assert (Hdig : forallb PyStr.isdigit_char s = true).
  { apply forallb_forall. intros c Hc. rewrite Forall_forall in Hall.
    unfold PyStr.isdigit_char, PyStr.isdecimal_char.
    now rewrite (ascii_digit_value c (Hall c Hc)). }
  split.
  - unfold PyStr.isdigit. destruct s; [congruence | exact Hdig].
  - assert (Hlen : (N.of_nat (length s) <= PyStr.max_str_digits)%N).
    { pose proof (digits_of_pos_length (S (N.to_nat (N.log2 (Z.to_N n))))
                    (Z.to_N n) []) as L.
      fold s in L. cbn [length] in L. unfold PyStr.max_str_digits. lia. }
    unfold PyStr.int. rewrite strip_int_plain.
    2:{ eapply Forall_impl; [|exact Hall]. apply ascii_digit_not_space. }
    destruct s as [|c s'] eqn:Es; [congruence|].
    apply Forall_cons_iff in Hall as Hc. destruct Hc as [Hc _].
    rewrite !(ascii_digit_not_char c) by first [assumption | left; reflexivity].
    rewrite (int_unsigned_short _ Hlen).
    rewrite int_digits_ascii; [|exact Hall | left; discriminate].
    rewrite Hval. f_equal. lia.
Qed.

(** ** One command, in full *)

Section Commands.

Variable unicode_lower : PyStr.str -> PyStr.str.

(** Every way a command can go: straight to its reply; one SELECT, then the
    reply; an exception before any effect; the INSERT of /newtask, then the
    reply; the UPDATE of /done, then the reply. *)
Lemma handle_cases (db : DB) (e : event) :
  (exists m, handle unicode_lower e db = answer (ev_update e) db [] m) \/
  (exists m, handle unicode_lower e db = answer (ev_update e) db [SqlSelect] m) \/
  (exists x, (ev_command e = CmdNewtask \/ ev_command e = CmdDone) /\
             handle unicode_lower e db = (Raise x, db, [])) \/
  (exists task user,
      ev_command e = CmdNewtask /\
      parse_task_input unicode_lower (PyStr.strip (PyStr.join (py " ") (ev_args e)))
        = Ok task /\
      effective_user (ev_update e) = Some user /\
      let r := new_row db (ev_update e) user task (ev_now e) in
      handle unicode_lower e db
        = answer (ev_update e) {| rows := rows db ++ [r]; seq := Row.id r |}
            [SqlInsert; SqlCommit] (Created (Row.id r))) \/
  (exists arg k r0,
      ev_command e = CmdDone /\ ev_args e = [arg] /\
      PyStr.isdigit arg = true /\ PyStr.int arg = Some k /\
      find_task k (effective_chat (ev_update e)) (rows db) = Some r0 /\
      handle unicode_lower e db
        = answer (ev_update e)
            {| rows := mark_done k (ev_now e) (rows db); seq := seq db |}
            [SqlSelect; SqlUpdate; SqlCommit] (Closed k)).
Proof.
  destruct e as [c u a n]. unfold handle.
  destruct c; cbn [ev_command ev_update ev_args ev_now].
  - left. now exists HelpText.
  - left. now exists HelpText.
  - unfold newtask.
    destruct (is_empty _); [left; now exists NewtaskUsage|].
    destruct (parse_task_input _ _) as [task|exc] eqn:P;
      [|left; now exists (Rejected exc)].
    destruct (effective_user u) as [created_by|] eqn:U.
    + unfold bind, sql_insert_task.
      destruct (2 ^ 63 <=? _)%Z eqn:Full.
      * right; right; left. exists OperationalError.
        split; [now left | reflexivity].
      * right; right; right; left. exists task, created_by.
        split; [reflexivity|]. split; [reflexivity|]. split; [reflexivity|].
        cbv zeta. unfold sql_commit, reply, answer, new_row.
        now destruct (has_message u).
    + right; right; left. exists AttributeError. split; [now left | reflexivity].
  - right; left. unfold tasks, bind, sql_list_open, reply, answer. cbn [rows].
    destruct (list_open _ _); eexists; now destruct (has_message u).
  - unfold mytasks.
    destruct (current_username u) as [[|c name]|];
      [left; now exists UnknownUser | | left; now exists UnknownUser].
    right; left. unfold bind, sql_list_open_for_assignee, reply, answer.
    destruct (list_open_for_assignee _ _ _); eexists; now destruct (has_message u).
  - destruct (negb (length a =? 1)%nat || negb (PyStr.isdigit (hd [] a))) eqn:G.
    { left. exists DoneUsage. unfold done. now rewrite G. }
    pose proof G as G'.
    apply orb_false_iff in G' as [Gl Gd].
    apply negb_false_iff in Gl, Gd. apply Nat.eqb_eq in Gl.
    destruct a as [|arg [|x a]]; try discriminate. cbn [hd] in *.
    destruct (PyStr.int arg) as [k|] eqn:I.
    2:{ right; right; left. exists ValueError. split; [now right|].
        unfold done. cbn [hd]. now rewrite G, I. }
    rewrite (done_with_id u arg n db k Gd I).
    destruct ((- 2 ^ 63 <=? k)%Z && (k <? 2 ^ 63)%Z) eqn:R.
    2:{ right; right; left. exists OverflowError. split; [now right|].
        now rewrite (complete_arg_out_of_range _ _ n _ R). }
    assert (Hr : (- 2 ^ 63 <= k < 2 ^ 63)%Z).
    { apply andb_true_iff in R as [R1 R2].
      apply Z.leb_le in R1. apply Z.ltb_lt in R2. now split. }
    rewrite (complete_arg_in_range _ _ n _ Hr).
    destruct (find_task k (effective_chat u) (rows db)) as [r0|] eqn:F.
    + right; right; right; right. exists arg, k, r0.
      rewrite (complete_found _ _ n _ _ F).
      split; [reflexivity|]. split; [reflexivity|]. split; [exact Gd|].
      split; [exact I|]. split; [exact F | reflexivity].
    + right; left. exists NotFound. now rewrite (complete_missing _ _ n _ F).
Qed.

Lemma step_result (db db' : DB) (e : event) (o : result exn unit) (l : list effect) :
  handle unicode_lower e db = (o, db', l) -> step unicode_lower db e = db'.
Proof. intros H. unfold step, db_after. now rewrite H. Qed.

Lemma step_answer (db db' : DB) (e : event) (u : Update) (l : list effect) (m : message) :
  handle unicode_lower e db = answer u db' l m -> step unicode_lower db e = db'.
Proof.
  intros H. unfold step, db_after. rewrite H. unfold answer.
  now destruct (has_message u).
Qed.

Ltac step_to H :=
  first [rewrite (step_answer _ _ _ _ _ _ H) | rewrite (step_result _ _ _ _ _ H)].

Lemma set_done_frozen (now : PyStr.str) (r : Row.t) :
  frozen_columns (set_done now r) = frozen_columns r.
Proof. reflexivity. Qed.

Lemma mark_done_frozen (task_id : Z) (now : PyStr.str) (table : list Row.t) :
  map frozen_columns (mark_done task_id now table) = map frozen_columns table.
Proof.
  unfold mark_done. rewrite map_map. apply map_ext.
  intros r. now destruct (Row.id r =? task_id)%Z.
Qed.

(** X8.  No command deletes or reorders rows, and none changes a column
    other than status and completed_at: after any command the table is the
    old one, row for row, in every other column, with at most one row added
    at the end. *)
Theorem rows_kept_columns_frozen (db : DB) (e : event) :
  exists added,
    (length added <= 1)%nat /\
    (added <> [] -> ev_command e = CmdNewtask) /\
    map frozen_columns (rows (step unicode_lower db e))
      = map frozen_columns (rows db) ++ map frozen_columns added.
Proof.
  destruct (handle_cases db e)
    as [[m H]|[[m H]|[[x [_ H]]|[[task [user [Hc [_ [_ H]]]]]|[arg [k [r0 [_ [_ [_ [_ [_ H]]]]]]]]]]]];
    cbv zeta in H; step_to H; cbn [rows].
  - exists []. rewrite app_nil_r. repeat split; [cbn; lia | congruence].
  - exists []. rewrite app_nil_r. repeat split; [cbn; lia | congruence].
  - exists []. rewrite app_nil_r. repeat split; [cbn; lia | congruence].
  - eexists [_]. rewrite map_app. repeat split; [cbn; lia | auto].
  - exists []. rewrite app_nil_r, mark_done_frozen.
    repeat split; [cbn; lia | congruence].
Qed.

Lemma one_to_bound (n : nat) (x : Z) : In x (one_to n) -> (1 <= x <= Z.of_nat n)%Z.
Proof.
  unfold one_to. rewrite in_map_iff. intros [k [<- Hk]].
  apply in_seq in Hk. lia.
Qed.

Lemma fold_right_max_bound (start : Z) (l : list Z) :
  (forall x, In x l -> (x <= start)%Z) -> fold_right Z.max start l = start.
Proof.
  induction l as [|y l IH]; intros H; cbn [fold_right]; [reflexivity|].
  rewrite IH by (intros x Hx; apply H; now right).
  specialize (H y (or_introl eq_refl)). lia.
Qed.

(** X9.  Starting from an empty table the bot numbers the tasks 1, 2, 3,
    ... in the order they are created: in every state it reaches, the ids of
    the rows are exactly 1 to the number of rows, and the AUTOINCREMENT
    counter is that number.  So ids are distinct and never reused. *)
Theorem ids_count_up (events : list event) :
  let db := run unicode_lower events (init_db None) in
  map Row.id (rows db) = one_to (length (rows db)) /\
  seq db = Z.of_nat (length (rows db)).
Proof.
  cbv zeta. induction events as [|e events [IHr IHs]] using rev_ind.
  - split; reflexivity.
  - rewrite run_snoc.
    set (db := run unicode_lower events (init_db None)) in *.
    destruct (handle_cases db e)
      as [[m H]|[[m H]|[[x [_ H]]|[[task [user [_ [_ [_ H]]]]]|[arg [k [r0 [_ [_ [_ [_ [_ H]]]]]]]]]]]];
      cbv zeta in H; step_to H; cbn [rows seq];
      try (split; assumption).
    + assert (Hid : Row.id (new_row db (ev_update e) user task (ev_now e))
                    = Z.of_nat (S (length (rows db)))).
      { cbn [new_row Row.id]. rewrite fold_right_max_bound; [lia|].
        intros x Hx. rewrite IHr in Hx. apply one_to_bound in Hx. lia. }
      rewrite map_app, length_app, IHr. cbn [map length].
      rewrite Hid. replace (length (rows db) + 1)%nat with (S (length (rows db))) by lia.
      split; [|reflexivity].
      unfold one_to. rewrite seq_S, map_app. reflexivity.
    + rewrite mark_done_ids. unfold mark_done. rewrite length_map.
      now split.
Qed.

(** X10.  A command ends normally only when it was sent as a new message,
    and then it has sent exactly one reply, as its last effect.  A command
    that ends with an exception has sent no reply.  Either the exception
    comes before any statement, which only /newtask and /done do, and the
    database is as it was; or it is the [AttributeError] of a handler that
    has no message to answer (a command in an edited message), raised where
    the reply would be sent, after everything else: what /newtask inserted
    or /done updated is committed all the same.  Before the reply a handler
    has done nothing, or run one SELECT, or (/newtask) one INSERT and a
    commit, or (/done) a SELECT, one UPDATE and a commit; no other command
    changes the database. *)
Theorem one_reply_or_exception (db : DB) (e : event) :
  match handle unicode_lower e db with
  | (Ok _, db', l) =>
      has_message (ev_update e) = true /\
      exists m l0, l = l0 ++ [Reply m] /\ replies l = [m] /\
                   work_before_reply db e db' l0
  | (Raise x, db', l) =>
      replies l = [] /\
      (((ev_command e = CmdNewtask \/ ev_command e = CmdDone) /\ db' = db /\ l = [])
       \/ (x = AttributeError /\ has_message (ev_update e) = false /\
           work_before_reply db e db' l))
  end.
Proof.
  assert (A : forall db' l m,
             work_before_reply db e db' l ->
             handle unicode_lower e db = answer (ev_update e) db' l m ->
             replies l = [] ->
             match handle unicode_lower e db with
             | (Ok _, db'', l') =>
                 has_message (ev_update e) = true /\
                 exists m l0, l' = l0 ++ [Reply m] /\ replies l' = [m] /\
                              work_before_reply db e db'' l0
             | (Raise x, db'', l') =>
                 replies l' = [] /\
                 (((ev_command e = CmdNewtask \/ ev_command e = CmdDone) /\
                   db'' = db /\ l' = [])
                  \/ (x = AttributeError /\ has_message (ev_update e) = false /\
                      work_before_reply db e db'' l'))
             end).
  { intros db' l m W H R. rewrite H. unfold answer.
    destruct (has_message (ev_update e)).
    - split; [reflexivity|]. exists m, l. split; [reflexivity|].
      split; [|exact W]. unfold replies in *. rewrite flat_map_app, R.
      reflexivity.
    - split; [exact R|]. right. auto. }
  destruct (handle_cases db e)
    as [[m H]|[[m H]|[[x [Hc H]]|[[task [user [Hc [_ [_ H]]]]]|[arg [k [r0 [Hc [_ [_ [_ [_ H]]]]]]]]]]]];
    cbv zeta in H.
  - apply (A _ _ _ (or_introl (conj eq_refl (or_introl eq_refl))) H eq_refl).
  - apply (A _ _ _ (or_introl (conj eq_refl (or_intror eq_refl))) H eq_refl).
  - rewrite H. split; [reflexivity|]. left. auto.
  - refine (A _ _ _ _ H eq_refl). right; left.
    split; [exact Hc|]. split; [reflexivity|]. eexists. reflexivity.
  - refine (A _ _ _ _ H eq_refl). right; right.
    split; [exact Hc|]. split; [reflexivity|]. exists k. reflexivity.
Qed.

Lemma same_id_same_row (table : list Row.t) (a b : Row.t) :
  NoDup (map Row.id table) -> In a table -> In b table ->
  Row.id a = Row.id b -> a = b.
Proof.
  induction table as [|x table IH]; cbn [map In]; [tauto|].
  intros Hn Ha Hb E. apply NoDup_cons_iff in Hn as [Hx Hn].
  destruct Ha as [->|Ha], Hb as [->|Hb]; auto.
  - exfalso. apply Hx. rewrite E. now apply in_map.
  - exfalso. apply Hx. rewrite <- E. now apply in_map.
Qed.

Lemma find_task_found (task_id chat : Z) (table : list Row.t) (r : Row.t) :
  find_task task_id chat table = Some r ->
  In r table /\ Row.id r = task_id /\ Row.chat_id r = chat.
Proof.
  unfold find_task. intros H. apply find_some in H as [Hin Hp].
  apply andb_true_iff in Hp as [Hi Hc]. apply Z.eqb_eq in Hi, Hc. auto.
Qed.

(** A filter does not see a change made to rows it rejects before and
    after. *)
Lemma filter_map_frame {A} (p : A -> bool) (g : A -> A) (l : list A) :
  (forall x, In x l -> g x = x \/ (p x = false /\ p (g x) = false)) ->
  filter p (map g l) = filter p l.
Proof.
  induction l as [|x l IH]; intros H; cbn [map filter]; [reflexivity|].
  rewrite IH by (intros y Hy; apply H; now right).
  destruct (H x (or_introl eq_refl)) as [->|[-> ->]]; reflexivity.
Qed.

(** X7.  With distinct ids in the table, a command sent in one chat leaves
    the tasks of every other chat alone: their rows stay as they are, and
    the /tasks and /mytasks listings of the other chat are the same before
    and after. *)
Theorem other_chats_untouched (db : DB) (e : event) (chat : Z) :
  NoDup (map Row.id (rows db)) ->
  effective_chat (ev_update e) <> chat ->
  let after := step unicode_lower db e in
  (forall i r, nth_error (rows db) i = Some r -> Row.chat_id r = chat ->
               nth_error (rows after) i = Some r) /\
  list_open chat (rows after) = list_open chat (rows db) /\
  (forall name, list_open_for_assignee chat name (rows after)
                = list_open_for_assignee chat name (rows db)).
Proof.
  intros Hn Hchat after. unfold after.
  destruct (handle_cases db e)
    as [[m H]|[[m H]|[[x [_ H]]|[[task [user [_ [_ [_ H]]]]]|[arg [k [r0 [_ [_ [_ [_ [F H]]]]]]]]]]]];
    cbv zeta in H; step_to H; cbn [rows];
    try (repeat split; auto; fail).
  - assert (Hc : (Row.chat_id (new_row db (ev_update e) user task (ev_now e)) =? chat)%Z = false)
      by (apply Z.eqb_neq; exact Hchat).
    split; [|split].
    + intros i r Hi _. rewrite nth_error_app1; [exact Hi|].
      apply nth_error_Some. congruence.
    + unfold list_open. rewrite filter_app. cbn [filter].
      rewrite Hc. cbn [andb]. now rewrite app_nil_r.
    + intros name. unfold list_open_for_assignee. rewrite filter_app. cbn [filter].
      rewrite Hc. cbn [andb]. now rewrite app_nil_r.
  - apply find_task_found in F as [Hin0 [Hid0 Hc0]].
    assert (Hk : forall r, In r (rows db) -> Row.chat_id r = chat ->
                           (Row.id r =? k)%Z = false).
    { intros r Hr Hc. apply Z.eqb_neq. intros E.
      assert (r = r0) by (apply (same_id_same_row (rows db)); auto; congruence).
      subst r. congruence. }
    assert (Hframe : forall (q : Row.t -> bool),
               (forall r, q (set_done (ev_now e) r) = true -> Row.chat_id r = chat) ->
               (forall r, q r = true -> Row.chat_id r = chat) ->
               filter q (mark_done k (ev_now e) (rows db)) = filter q (rows db)).
    { intros q Hq1 Hq2. unfold mark_done. apply filter_map_frame.
      intros r Hr. destruct (Row.id r =? k)%Z eqn:E; [right | now left].
      split.
      - destruct (q r) eqn:Q; [|reflexivity].
        rewrite (Hk r Hr (Hq2 r Q)) in E. discriminate.
      - destruct (q (set_done (ev_now e) r)) eqn:Q; [|reflexivity].
        rewrite (Hk r Hr (Hq1 r Q)) in E. discriminate. }
    split; [|split].
    + intros i r Hi Hc. unfold mark_done. rewrite nth_error_map, Hi. cbn [option_map].
      now rewrite (Hk r (nth_error_In _ _ Hi) Hc).
    + unfold list_open. f_equal. apply Hframe; intros r Hq;
        apply andb_true_iff in Hq as [Hq _]; now apply Z.eqb_eq in Hq.
    + intros name. unfold list_open_for_assignee. f_equal.
      apply Hframe; intros r Hq;
        apply andb_true_iff in Hq as [Hq _];
        apply andb_true_iff in Hq as [Hq _]; now apply Z.eqb_eq in Hq.
Qed.

Lemma find_app_last {A} (p : A -> bool) (l : list A) (x : A) :
  (forall y, In y l -> p y = false) -> p x = true -> find p (l ++ [x]) = Some x.
Proof.
  induction l as [|y l IH]; intros H Hx; cbn [app find].
  - now rewrite Hx.
  - rewrite (H y (or_introl eq_refl)). apply IH; [|exact Hx].
    intros z Hz. apply H. now right.
Qed.

(** X5.  When /newtask gets a text that [parse_task_input] accepts, from a
    known user, and the ids have not run out, it appends one open row built
    from the parsed fields, under an id above every id in the table, commits
    it, and then answers with that id when the command came as a new message
    (in an edited message the handler has no message to answer and ends in
    [AttributeError], the row staying committed).  When the next id would
    not fit 64 bits the INSERT is refused with [OperationalError] and
    nothing changes.  The row, once appended, is at once in the /tasks
    listing of the chat and in the /mytasks listing of its assignee, and the
    lookup of /done by that id in that chat finds it. *)
Theorem created_task_is_listed (db : DB) (update : Update) (args : list PyStr.str)
    (now : PyStr.str) (task : TaskInput.t) (user : User.t) :
  parse_task_input unicode_lower (PyStr.strip (PyStr.join (py " ") args)) = Ok task ->
  effective_user update = Some user ->
  let r := new_row db update user task now in
  let after := {| rows := rows db ++ [r]; seq := Row.id r |} in
  newtask unicode_lower update args now db
    = (if (2 ^ 63 <=? Row.id r)%Z then (Raise OperationalError, db, [])
       else answer update after [SqlInsert; SqlCommit] (Created (Row.id r))) /\
  (forall x, In x (rows db) -> (Row.id x < Row.id r)%Z) /\
  In r (list_open (effective_chat update) (rows after)) /\
  In r (list_open_for_assignee (effective_chat update) (TaskInput.assignee task)
          (rows after)) /\
  find_task (Row.id r) (effective_chat update) (rows after) = Some r.
Proof.
  intros P U r after.
  assert (Hlt : forall x, In x (rows db) -> (Row.id x < Row.id r)%Z).
  { intros x Hx. pose proof (max_id_bound (rows db) (seq db) x Hx).
    unfold r. cbn [new_row Row.id]. lia. }
  assert (Hin : In r (rows after)) by (cbn [after rows]; apply in_or_app; right; now left).
  split; [|split; [exact Hlt|split; [|split]]].
  - unfold newtask.
    destruct (PyStr.strip (PyStr.join (py " ") args)) as [|c raw] eqn:E;
      [discriminate P|].
    cbn [is_empty]. rewrite P, U.
    unfold bind, sql_insert_task, sql_commit, reply, answer.
    cbn [r new_row Row.id].
    destruct (2 ^ 63 <=? _)%Z; [reflexivity|].
    now destruct (has_message update).
  - apply list_open_in. split; [exact Hin|]. split; reflexivity.
  - apply list_open_for_assignee_in. split; [exact Hin|]. repeat split.
  - cbn [after rows]. unfold find_task. apply find_app_last.
    + intros y Hy. apply Hlt in Hy. apply andb_false_iff. left.
      apply Z.eqb_neq. lia.
    + cbn [r new_row Row.id Row.chat_id]. now rewrite !Z.eqb_refl.
Qed.

End Commands.

(** ** /done and the ids the bot prints *)

(** X6.  The id of a task as the bot prints it, in the block of a listing
    ("*#<id>* ...") and in the reply of /newtask, is text that /done
    accepts: sent back as the argument of /done in the task's chat, it passes
    the digit check, is read as the same number, and the task is closed and
    the change committed; the "closed" reply follows when the command came
    as a new message (in an edited message the handler ends in
    [AttributeError] there, the task staying closed). *)
Theorem done_closes_printed_id (update : Update) (now : PyStr.str) (db : DB) (r : Row.t) :
  In r (rows db) ->
  Row.chat_id r = effective_chat update ->
  (0 <= Row.id r < 2 ^ 63)%Z ->
  (exists tail, format_task_row r = py "*#" ++ PyStr.of_Z (Row.id r) ++ py "* " ++ tail) /\
  (exists head, created_text (Row.id r) = head ++ py "#" ++ PyStr.of_Z (Row.id r)) /\
  done update [PyStr.of_Z (Row.id r)] now db
    = answer update {| rows := mark_done (Row.id r) now (rows db); seq := seq db |}
        [SqlSelect; SqlUpdate; SqlCommit] (Closed (Row.id r)) /\
  In (set_done now r) (mark_done (Row.id r) now (rows db)).
Proof.
  intros Hin Hc Hr.
  split; [eexists; unfold format_task_row; reflexivity|].
  split.
  { eexists (firstn 16 (created_text 0)). reflexivity. }
  destruct (int_of_Z (Row.id r) Hr) as [Hd Hi].
  destruct (find_task_some _ _ _ _ Hin eq_refl Hc) as [r0 F].
  split.
  - rewrite (done_with_id update _ now db (Row.id r) Hd Hi).
    rewrite complete_arg_in_range by lia.
    now rewrite (complete_found _ _ now _ _ F).
  - unfold mark_done. apply in_map_iff. exists r. split; [|exact Hin].
    now rewrite Z.eqb_refl.
Qed.

(** ** /mytasks *)

Lemma insert_sorted_first (r : Row.t) (l : list Row.t) :
  Forall (listed_before r) l -> insert_sorted r l = r :: l.
Proof.
  destruct l as [|x l]; [reflexivity|]. intros H.
  apply Forall_inv in H. cbn [insert_sorted]. unfold listed_before in H.
  now rewrite H.
Qed.

Lemma filter_insert_sorted (p : Row.t -> bool) (r : Row.t) (l : list Row.t) :
  StronglySorted listed_before l ->
  filter p (insert_sorted r l)
    = if p r then insert_sorted r (filter p l) else filter p l.
Proof.
  induction 1 as [|x l Hl IH Hx]; cbn [insert_sorted filter].
  - now destruct (p r).
  - destruct (order_leb r x) eqn:E.
    + cbn [filter]. destruct (p r); [|reflexivity].
      symmetry. apply insert_sorted_first.
      assert (Hall : Forall (listed_before r) (x :: l)).
      { constructor; [exact E|]. eapply Forall_impl; [|exact Hx].
        intros y Hy. exact (order_leb_trans _ _ _ E Hy). }
      rewrite Forall_forall in *. intros y Hy.
      apply Hall. change (In y (filter p (x :: l))) in Hy.
      now apply filter_In in Hy.
    + cbn [filter]. rewrite IH.
      destruct (p r), (p x); cbn [insert_sorted]; rewrite ?E; reflexivity.
Qed.

Lemma order_by_filter (p : Row.t -> bool) (l : list Row.t) :
  order_by (filter p l) = filter p (order_by l).
Proof.
  induction l as [|r l IH]; cbn [filter order_by]; [reflexivity|].
  rewrite (filter_insert_sorted p r _ (order_by_sorted l)).
  destruct (p r); cbn [order_by]; now rewrite IH.
Qed.

Lemma filter_andb {A} (p q : A -> bool) (l : list A) :
  filter (fun x => p x && q x) l = filter q (filter p l).
Proof.
  induction l as [|x l IH]; cbn [filter]; [reflexivity|].
  destruct (p x); cbn [andb filter]; [destruct (q x)|]; now rewrite IH.
Qed.

(** X4.  For a known user /mytasks does not take the "cannot tell who you
    are" branch: it runs one SELECT, changes nothing, and what it has to
    list is the /tasks listing of the chat cut down to the rows whose
    assignee is the requester's normalized handle, in the same order.  The
    listing is sent when the command came as a new message; in an edited
    message the handler has no message to answer and ends in
    [AttributeError] after the SELECT. *)
Theorem mytasks_is_tasks_for_handle (chat : Z) (user : User.t) (with_message : bool)
    (args : list PyStr.str) (db : DB) :
  let update := {| effective_chat := chat; effective_user := Some user;
                   has_message := with_message |} in
  let handle_of_user := normalize_username (username_or_id user) in
  let mine := filter (fun r => PyStr.eqb (Row.assignee_username r) handle_of_user)
                     (list_open chat (rows db)) in
  current_username update = Some handle_of_user /\
  list_open_for_assignee chat handle_of_user (rows db) = mine /\
  mytasks update args db
    = answer update db [SqlSelect]
        (match mine with
         | [] => NoOpenTasksForYou
         | _ :: _ => TaskList mine
         end).
Proof.
  intros update handle_of_user mine.
  assert (Hcur : current_username update = Some handle_of_user).
  { unfold current_username, handle_of_user, username_or_id, update.
    cbn [effective_user].
    now destruct (User.username user) as [[|c name]|]. }
  assert (Hlist : list_open_for_assignee chat handle_of_user (rows db) = mine).
  { unfold mine, list_open_for_assignee, list_open.
    rewrite <- order_by_filter. f_equal. apply filter_andb. }
  split; [exact Hcur|]. split; [exact Hlist|].
  unfold mytasks. rewrite Hcur.
  destruct (normalize_username_handle (username_or_id user)) as [Hs _].
  fold handle_of_user in Hs.
  destruct handle_of_user as [|c name] eqn:E; [discriminate Hs|].
  unfold bind, sql_list_open_for_assignee, reply, answer.
  cbn [effective_chat has_message update].
  rewrite Hlist. now destruct mine, with_message.
Qed.

(** ** The order of a listing, spelled out *)

Lemma sorted_before (l : list Row.t) (a b : Row.t) :
  StronglySorted listed_before l -> before l a b -> listed_before a b.
Proof.
  intros Hs [l1 [l2 [l3 ->]]].
  induction l1 as [|x l1 IH]; cbn [app] in Hs.
  - apply StronglySorted_inv in Hs as [_ Hall].
    rewrite Forall_forall in Hall. apply Hall.
    apply in_or_app. right. now left.
  - apply StronglySorted_inv in Hs as [Hs _]. now apply IH.
Qed.

(** X13.  In the listings of /tasks and /mytasks, whenever one task stands
    before another, its due date is not later as text; if the due dates are
    the same, its priority is not smaller as text; and if the priorities are
    the same too, its id is the greater or equal one. *)
Theorem listing_order (chat : Z) (name : PyStr.str) (table : list Row.t) (a b : Row.t) :
  before (list_open chat table) a b \/
  before (list_open_for_assignee chat name table) a b ->
  PyStr.compare (Row.due_date a) (Row.due_date b) <> Gt /\
  (Row.due_date a = Row.due_date b ->
   PyStr.compare (Row.priority a) (Row.priority b) <> Lt /\
   (Row.priority a = Row.priority b -> (Row.id b <= Row.id a)%Z)).
Proof.
  intros H.
  assert (L : listed_before a b).
  { destruct H as [H|H]; eapply sorted_before; try exact H; apply order_by_sorted. }
  unfold listed_before, order_leb, order_cmp in L.
  split.
  - intros E. rewrite E in L. discriminate.
  - intros Ed. rewrite Ed, str_compare_refl in L. split.
    + intros E. rewrite (str_compare_antisym (Row.priority a) (Row.priority b)), E in L.
      discriminate.
    + intros Ep. rewrite Ep, str_compare_refl in L.
      destruct (Row.id b ?= Row.id a)%Z eqn:C; try discriminate.
      * apply Z.compare_eq in C. rewrite C. apply Z.le_refl.
      * apply Z.compare_lt_iff in C. now apply Z.lt_le_incl.
Qed.

(** ** What [parse_task_input] lets through *)

Lemma strip_is_trimmed (s : PyStr.str) : trimmed (PyStr.strip s).
Proof. now destruct (strip_spec s) as [_ [_ [_ [_ [_ H]]]]]. Qed.

Lemma strip_idempotent (s : PyStr.str) : PyStr.strip (PyStr.strip s) = PyStr.strip s.
Proof. apply strip_trimmed, strip_is_trimmed. Qed.

Lemma normalize_username_strip (s : PyStr.str) :
  normalize_username (PyStr.strip s) = normalize_username s.
Proof. unfold normalize_username. now rewrite strip_idempotent. Qed.

Section Accepted.

Variable unicode_lower : PyStr.str -> PyStr.str.

Local Abbreviation lower := (PyStr.lower unicode_lower).
Local Abbreviation parse := (parse_task_input unicode_lower).

(** X1.  Whatever [parse_task_input] returns is well formed: the text had
    exactly four bars; the title is not empty; the assignee starts with '@';
    the due date is text that [strptime] reads as a day of the calendar; the
    priority is one of low, medium, high; and no field has whitespace at
    either end. *)
Theorem parsed_task_well_formed (raw : PyStr.str) (task : TaskInput.t) :
  parse raw = Ok task ->
  count_occ N.eq_dec raw (PyStr.chr "|") = 4%nat /\
  TaskInput.title task <> [] /\
  PyStr.startswith (py "@") (TaskInput.assignee task) = true /\
  (exists dt, Datetime.strptime (TaskInput.due_date task) = Some dt /\
              (1 <= Datetime.year dt <= 9999)%Z /\
              (1 <= Datetime.month dt <= 12)%Z /\
              (1 <= Datetime.day dt
               <= Datetime.days_in_month (Datetime.year dt) (Datetime.month dt))%Z) /\
  In (TaskInput.priority task) priorities /\
  trimmed (TaskInput.title task) /\ trimmed (TaskInput.assignee task) /\
  trimmed (TaskInput.due_date task) /\ trimmed (TaskInput.priority task) /\
  trimmed (TaskInput.tags task).
Proof.
  intros P. pose proof P as P0. unfold parse_task_input in P.
  pose proof (split_length (PyStr.chr "|") raw) as Hlen.
  rewrite <- (length_map PyStr.strip) in Hlen.
  destruct (map PyStr.strip (PyStr.split (PyStr.chr "|") raw))
    as [|t [|a [|d [|p [|g [|x more]]]]]] eqn:Hf; try discriminate P.
  clear P. rewrite (parse_five_fields unicode_lower raw _ _ _ _ _ Hf) in P0.
  assert (Ht : forall x, In x [t; a; d; p; g] -> trimmed x).
  { intros x Hx. rewrite <- Hf in Hx. apply in_map_iff in Hx as [s [<- _]].
    apply strip_is_trimmed. }
  destruct t as [|c t]; [discriminate P0|]. cbn [is_empty] in P0.
  destruct (Datetime.strptime d) as [dt|] eqn:D; [|discriminate P0].
  destruct (existsb (PyStr.eqb (lower p)) priorities) eqn:E; [|discriminate P0].
  injection P0 as <-. cbn [TaskInput.title TaskInput.assignee TaskInput.due_date
                          TaskInput.priority TaskInput.tags].
  destruct (strptime_accepts_only_dates d dt D) as [_ [Hy [Hm Hd]]].
  destruct (normalize_username_handle a) as [Hs Hta].
  apply existsb_str_eqb in E.
  split; [cbn [length] in Hlen; lia|].
  split; [discriminate|]. split; [exact Hs|].
  split; [exists dt; auto|]. split; [exact E|].
  split; [apply Ht; cbn; auto|]. split; [exact Hta|].
  split; [apply Ht; cbn; auto|].
  split; [|apply Ht; cbn; auto 6].
  destruct E as [<-|[<-|[<-|[]]]]; split; intros c0 r0 H0;
    repeat (destruct r0 as [|? r0]; try discriminate H0);
    injection H0; intros; subst; reflexivity.
Qed.

(** X2.  Five fields joined with bars are accepted whenever they hold no
    bar themselves, the title is not blank, the due date field is (up to
    the whitespace around it) a day of the calendar in the form YYYY-MM-DD,
    and the priority field is low, medium or high up to case and the
    whitespace around it.  The result holds the stripped title and tags, the
    normalized assignee, the date as written and the priority in lowercase. *)
Theorem well_formed_text_accepted (title assignee due priority tags : PyStr.str)
    (y m d : Z) :
  no_bar title -> no_bar assignee -> no_bar due -> no_bar priority -> no_bar tags ->
  PyStr.strip title <> [] ->
  PyStr.strip due = isoformat y m d ->
  Datetime.make_date y m d <> None ->
  In (lower (PyStr.strip priority)) priorities ->
  parse (PyStr.join [PyStr.chr "|"] [title; assignee; due; priority; tags])
  = Ok {| TaskInput.title := PyStr.strip title;
          TaskInput.assignee := normalize_username assignee;
          TaskInput.due_date := isoformat y m d;
          TaskInput.priority := lower (PyStr.strip priority);
          TaskInput.tags := PyStr.strip tags |}.
Proof.
  intros Ht Ha Hd Hp Hg Hne Hdue Hdate Hprio.
  assert (Hf : map PyStr.strip
                 (PyStr.split (PyStr.chr "|")
                    (PyStr.join [PyStr.chr "|"] [title; assignee; due; priority; tags]))
               = [PyStr.strip title; PyStr.strip assignee; PyStr.strip due;
                  PyStr.strip priority; PyStr.strip tags]).
  { cbn [PyStr.join app].
    rewrite !split_field by assumption. now rewrite split_whole by assumption. }
  rewrite (parse_five_fields unicode_lower _ _ _ _ _ _ Hf).
  destruct (PyStr.strip title) as [|c t]; [congruence|]. cbn [is_empty].
  rewrite Hdue, strptime_isoformat by exact Hdate.
  destruct (Datetime.make_date y m d); [|congruence].
  apply existsb_str_eqb in Hprio. rewrite Hprio.
  now rewrite normalize_username_strip.
Qed.

End Accepted.

(** ** The further properties at work *)

(** [parsed_task_well_formed] on the example of the specification. *)
Lemma parsed_task_well_formed_witness :
  count_occ N.eq_dec (py "Ship report | alice | 2024-03-01 | high | urgent,q1")
    (PyStr.chr "|") = 4%nat /\
  In (py "high") priorities.
Proof.
  assert (H : parse_task_input no_case_tables
                (py "Ship report | alice | 2024-03-01 | high | urgent,q1")
              = Ok {| TaskInput.title := py "Ship report";
                      TaskInput.assignee := py "@alice";
                      TaskInput.due_date := py "2024-03-01";
                      TaskInput.priority := py "high";
                      TaskInput.tags := py "urgent,q1" |})
    by (vm_compute; reflexivity).
  pose proof (parsed_task_well_formed no_case_tables _ _ H) as W.
  split; [exact (proj1 W) | exact (proj1 (proj2 (proj2 (proj2 (proj2 W)))))].
Defined.

(** [well_formed_text_accepted] on fields padded with spaces and a priority
    in mixed case. *)
Lemma well_formed_text_accepted_witness :
  parse_task_input no_case_tables
    (py "Ship report | alice | 2024-03-01 | High | urgent,q1")
  = Ok {| TaskInput.title := py "Ship report";
          TaskInput.assignee := py "@alice";
          TaskInput.due_date := py "2024-03-01";
          TaskInput.priority := py "high";
          TaskInput.tags := py "urgent,q1" |}.
Proof.
  refine (well_formed_text_accepted no_case_tables
            (py "Ship report ") (py " alice ") (py " 2024-03-01 ") (py " High ")
            (py " urgent,q1") 2024 3 1 _ _ _ _ _ _ _ _ _).
  1-5: unfold no_bar; vm_compute; intuition discriminate.
  - vm_compute. discriminate.
  - vm_compute. reflexivity.
  - vm_compute. discriminate.
  - vm_compute. right; right; left. reflexivity.
Defined.

(** [created_task_is_listed] on a fourth task added to [three_priorities]. *)
Lemma created_task_is_listed_witness :
  newtask no_case_tables in_chat_7
    (map py ["D"; "|"; "bob"; "|"; "2024-01-03"; "|"; "low"; "|"; "y"]%string)
    (py "t4") three_priorities
  = (Ok tt,
     {| rows := rows three_priorities
                ++ [new_row three_priorities in_chat_7 sender fourth_input (py "t4")];
        seq := 4 |},
     [SqlInsert; SqlCommit; Reply (Created 4)]) /\
  find_task 4 7 (rows three_priorities
                 ++ [new_row three_priorities in_chat_7 sender fourth_input (py "t4")])
  = Some (new_row three_priorities in_chat_7 sender fourth_input (py "t4")).
Proof.
  assert (P : parse_task_input no_case_tables
                (PyStr.strip (PyStr.join (py " ")
                   (map py ["D"; "|"; "bob"; "|"; "2024-01-03"; "|"; "low"; "|"; "y"]%string)))
              = Ok fourth_input) by (vm_compute; reflexivity).
  pose proof (created_task_is_listed no_case_tables three_priorities in_chat_7 _ (py "t4")
                fourth_input sender P eq_refl) as W.
  split; [exact (proj1 W) | exact (proj2 (proj2 (proj2 (proj2 W))))].
Defined.

(** [done_closes_printed_id] on the medium task of chat 7. *)
Lemma done_closes_printed_id_witness :
  done in_chat_7 [PyStr.of_Z 2] (py "t4") three_priorities
  = (Ok tt,
     {| rows := mark_done 2 (py "t4") (rows three_priorities);
        seq := seq three_priorities |},
     [SqlSelect; SqlUpdate; SqlCommit; Reply (Closed 2)]).
Proof.
  assert (Hin : In medium_task (rows three_priorities))
    by (vm_compute; right; left; reflexivity).
  assert (Hr : (0 <= Row.id medium_task < 2 ^ 63)%Z)
    by (cbn [medium_task Row.id]; lia).
  exact (proj1 (proj2 (proj2
           (done_closes_printed_id in_chat_7 (py "t4") three_priorities medium_task
              Hin eq_refl Hr)))).
Defined.

(** [other_chats_untouched]: a /done 1 sent in chat 8 leaves the listing of
    chat 7 as it was. *)
Lemma other_chats_untouched_witness :
  list_open 7 (rows (step no_case_tables three_priorities
                       (sent CmdDone 8 ["1"]%string "t4")))
  = list_open 7 (rows three_priorities).
Proof.
  assert (Hn : NoDup (map Row.id (rows three_priorities)))
    by (unfold three_priorities; apply reachable_ids_unique).
  assert (Hc : effective_chat (ev_update (sent CmdDone 8 ["1"]%string "t4")) <> 7%Z)
    by (cbn; lia).
  exact (proj1 (proj2
           (other_chats_untouched no_case_tables three_priorities _ 7 Hn Hc))).
Defined.

(** [listing_order] on the first two rows of the listing of chat 7. *)
Lemma listing_order_witness :
  PyStr.compare (Row.due_date medium_task) (Row.due_date low_task) <> Gt /\
  (Row.due_date medium_task = Row.due_date low_task ->
   PyStr.compare (Row.priority medium_task) (Row.priority low_task) <> Lt /\
   (Row.priority medium_task = Row.priority low_task ->
    (Row.id low_task <= Row.id medium_task)%Z)).
Proof.
  apply (listing_order 7 [] (rows three_priorities) medium_task low_task).
  left. exists [], [], (skipn 2 (list_open 7 (rows three_priorities))).
  vm_compute. reflexivity.
Defined.

(** [done_consults_store_only_for_id] on /done 2 in chat 7. *)
Lemma done_consults_store_only_for_id_witness :
  exists arg n,
    [py "2"] = [arg] /\ PyStr.isdecimal arg = true /\ PyStr.int arg = Some n /\
    (0 <= n < 2 ^ 63)%Z.
Proof.
  apply (done_consults_store_only_for_id in_chat_7 [py "2"] (py "t4") three_priorities).
  vm_compute. reflexivity.
Defined.
